(** * The call-flow dispatcher of [main.py]

    A shallow embedding of the Flask application: the three JSON documents it
    keeps (call states, pathway graph, assistant configuration), the two
    routes [/chat/completions] and [/config], and the generator that turns
    the provider's token stream into server-sent-event frames.

    Python values that come from JSON are kept dynamically typed ([json]),
    and every operation on them raises what Python raises.  Dictionaries keep
    their insertion order.  Three things are fixed by type: call identifiers
    and node names are strings, the bodies of requests are JSON objects, and
    JSON numbers are integers. *)

From Stdlib Require Import String Ascii List ZArith QArith Bool Lia DecimalString.
Import ListNotations.
Close Scope Q_scope.
Open Scope string_scope.

Set Warnings "-register-all".

(** ** JSON values as Python sees them after [json.load] *)

Inductive json : Type :=
| JNull                                   (* None *)
| JBool (b : bool)
| JNum (n : Z)
| JStr (s : string)
| JArr (items : list json)
| JObj (fields : list (string * json)).

(** Python truth value testing: [None], [False], [0], [""], [[]] and [{}]
    are false, everything else is true. *)
Definition truthy (v : json) : bool :=
  match v with
  | JNull => false
  | JBool b => b
  | JNum n => negb (n =? 0)%Z
  | JStr s => negb (s =? "")
  | JArr items => match items with [] => false | _ :: _ => true end
  | JObj fields => match fields with [] => false | _ :: _ => true end
  end.

(** ** Insertion-ordered dictionaries with string keys *)

Definition pydict (V : Type) : Type := list (string * V).

Section Dict.
Context {V : Type}.

(** [d.get(k)], with [None] for a missing key. *)
Fixpoint dict_get (k : string) (d : pydict V) : option V :=
  match d with
  | [] => None
  | (k', v) :: rest => if k' =? k then Some v else dict_get k rest
  end.

(** [k in d] *)
Definition dict_contains (k : string) (d : pydict V) : bool :=
  match dict_get k d with Some _ => true | None => false end.

(** [d[k] = v]: an existing key keeps its place, a new one goes last. *)
Fixpoint dict_setitem (k : string) (v : V) (d : pydict V) : pydict V :=
  match d with
  | [] => [(k, v)]
  | (k', v') :: rest =>
      if k' =? k then (k', v) :: rest else (k', v') :: dict_setitem k v rest
  end.

(** [d.update(other)]: the items of [other] are assigned in order. *)
Definition dict_update (d other : pydict V) : pydict V :=
  fold_left (fun acc kv => dict_setitem (fst kv) (snd kv) acc) other d.

(** [list(d.keys())] *)
Definition dict_keys (d : pydict V) : list string := map fst d.
End Dict.

(** [d.get(k, default)] *)
Definition dict_get_default {V} (k : string) (default : V) (d : pydict V) : V :=
  match dict_get k d with Some v => v | None => default end.

(** ** Exceptions and outcomes *)

Inductive exn : Type :=
| KeyError (key : json)
| IndexError
| TypeError
| AttributeError
| ProviderError (msg : string).          (* raised by the provider client *)

Inductive outcome (A : Type) : Type :=
| Return (a : A)
| Raise (e : exn).
Arguments Return {A} a.
Arguments Raise {A} e.

(** ** Dynamic operations on JSON values *)

(** [obj.get(k, default)]: only dictionaries have [get]. *)
Definition py_get (obj : json) (k : string) (default : json) : outcome json :=
  match obj with
  | JObj fields => Return (dict_get_default k default fields)
  | _ => Raise AttributeError
  end.

(** [obj[k]] with a string [k]. *)
Definition py_getitem (obj : json) (k : string) : outcome json :=
  match obj with
  | JObj fields =>
      match dict_get k fields with
      | Some v => Return v
      | None => Raise (KeyError (JStr k))
      end
  | _ => Raise TypeError
  end.

(** A string is held as the bytes of its UTF-8 encoding, while Python
    indexes a [str] by characters: a character is a lead byte together with
    the continuation bytes (of the form 10xxxxxx) that follow it. *)
Definition is_continuation (c : ascii) : bool :=
  let n := nat_of_ascii c in (128 <=? n)%nat && (n <? 192)%nat.

Fixpoint continuation_bytes (s : string) : string :=
  match s with
  | EmptyString => EmptyString
  | String c s' =>
      if is_continuation c then String c (continuation_bytes s') else EmptyString
  end.

(** The first character of the string [String c s], as a one-character
    string. *)
Definition first_char (c : ascii) (s : string) : string :=
  String c (continuation_bytes s).

(** The last character of the string [String c s], as a one-character
    string. *)
Fixpoint last_char (c : ascii) (s : string) : string :=
  match s with
  | EmptyString => String c EmptyString
  | String c' s' =>
      match last_char c' s' with
      | String c0 tail =>
          if is_continuation c0 then String c (String c0 tail) else String c0 tail
      | EmptyString => String c EmptyString
      end
  end.

(** [obj[0]] *)
Definition py_first (obj : json) : outcome json :=
  match obj with
  | JArr (x :: _) => Return x
  | JArr [] => Raise IndexError
  | JStr (String c s) => Return (JStr (first_char c s))
  | JStr EmptyString => Raise IndexError
  | JObj _ => Raise (KeyError (JNum 0))
  | _ => Raise TypeError
  end.

(** [obj[-1]] *)
Definition py_last (obj : json) : outcome json :=
  match obj with
  | JArr (x :: rest) => Return (last rest x)
  | JArr [] => Raise IndexError
  | JStr (String c s) => Return (JStr (last_char c s))
  | JStr EmptyString => Raise IndexError
  | JObj _ => Raise (KeyError (JNum (-1)))
  | _ => Raise TypeError
  end.

(** [name in d] for a dictionary with string keys: lists and dictionaries are
    unhashable, other non-strings are simply not among the keys. *)
Definition py_contains {V} (name : json) (d : pydict V) : outcome bool :=
  match name with
  | JStr s => Return (dict_contains s d)
  | JArr _ | JObj _ => Raise TypeError
  | _ => Return false
  end.

(** [d[name]] for a dictionary with string keys. *)
Definition py_lookup {V} (name : json) (d : pydict V) : outcome V :=
  match name with
  | JStr s =>
      match dict_get s d with
      | Some v => Return v
      | None => Raise (KeyError name)
      end
  | JArr _ | JObj _ => Raise TypeError
  | _ => Raise (KeyError name)
  end.

(** ** What the provider client exchanges with the program *)

(** The keyword arguments of [client.chat.completions.create]; the two
    optional keys are there only when a function is advertised. *)
Record openai_params : Type := {
  model : json;
  messages : list json;
  max_tokens : Z;
  temperature : Q;
  stream : json;
  functions : option (list json);
  function_call_mode : option json           (* the key "function_call" *)
}.

(** One element of the provider's stream, as far as the program reads it. *)
Record function_call_delta : Type := {
  name : option string;
  arguments : option string
}.

Record delta_t : Type := {
  content : option string;
  function_call : option function_call_delta
}.

Record choice : Type := { delta : delta_t }.

Record chunk : Type := { choices : list choice }.

(** ** The process state *)

Inductive event : Type :=
| SaveCallStates (states : pydict json)      (* json.dump to CALL_STATE_FILE *)
| DumpConfig (config : pydict json)          (* json.dump to ASSISTANT_CONFIG_FILE *)
| ProviderCall (params : openai_params)      (* client.chat.completions.create *)
| LogError (msg : string).                   (* logger.error *)

Record world : Type := {
  flow_nodes : pydict (pydict json);         (* the loaded pathway graph *)
  assistant_config : pydict json;            (* the in-memory configuration *)
  call_states_file : pydict json;            (* contents of call_states.json *)
  assistant_config_file : pydict json;       (* contents of assistant_config.json *)
  trace : list event                         (* effects so far, oldest first *)
}.

(** ** State and exceptions: a raise keeps the effects done before it *)

Definition M (A : Type) : Type := world -> outcome A * world.

Definition ret {A} (a : A) : M A := fun w => (Return a, w).

Definition raise {A} (e : exn) : M A := fun w => (Raise e, w).

Definition bind {A B} (m : M A) (f : A -> M B) : M B :=
  fun w =>
    match m w with
    | (Return a, w') => f a w'
    | (Raise e, w') => (Raise e, w')
    end.

Definition lift {A} (o : outcome A) : M A := fun w => (o, w).

(** The world with more effects recorded. *)
Definition with_events (events : list event) (w : world) : world :=
  {| flow_nodes := flow_nodes w;
     assistant_config := assistant_config w;
     call_states_file := call_states_file w;
     assistant_config_file := assistant_config_file w;
     trace := trace w ++ events |}.

Definition emit (e : event) : M unit :=
  fun w => (Return tt, with_events [e] w).

Declare Scope py_scope.
Delimit Scope py_scope with py.
Notation "x <- m ;; k" := (bind m (fun x => k))
  (at level 61, m at next level, right associativity) : py_scope.
Notation "m ;; k" := (bind m (fun _ => k))
  (at level 61, right associativity) : py_scope.
Open Scope py_scope.

Definition the_flow_nodes : M (pydict (pydict json)) :=
  fun w => (Return (flow_nodes w), w).

Definition the_assistant_config : M (pydict json) :=
  fun w => (Return (assistant_config w), w).

Definition with_flow_nodes (nodes : pydict (pydict json)) (w : world) : world :=
  {| flow_nodes := nodes;
     assistant_config := assistant_config w;
     call_states_file := call_states_file w;
     assistant_config_file := assistant_config_file w;
     trace := trace w |}.

Definition with_assistant_config (config : pydict json) (w : world) : world :=
  {| flow_nodes := flow_nodes w;
     assistant_config := config;
     call_states_file := call_states_file w;
     assistant_config_file := assistant_config_file w;
     trace := trace w |}.

Definition with_call_states_file (states : pydict json) (w : world) : world :=
  {| flow_nodes := flow_nodes w;
     assistant_config := assistant_config w;
     call_states_file := states;
     assistant_config_file := assistant_config_file w;
     trace := trace w |}.

Definition with_assistant_config_file (config : pydict json) (w : world) : world :=
  {| flow_nodes := flow_nodes w;
     assistant_config := assistant_config w;
     call_states_file := call_states_file w;
     assistant_config_file := config;
     trace := trace w |}.

(** ** HTTP responses *)

Inductive response : Type :=
| JsonResponse (status : Z) (body : json)
    (* jsonify(body), status *)
| EventStream (frames : list string) (failure : option exn).
    (* Response(generator, content_type='text/event-stream'): the frames the
       generator yields and the exception that ends it early, if any *)

(** What [client.chat.completions.create] returns when it does not stream:
    a [ChatCompletion], an object of a class of the [openai] package, with
    its fields. *)
Inductive completion : Type :=
| ChatCompletion (fields : json).

(** [jsonify(completion)].  The encoder of Flask writes dictionaries, lists,
    strings, numbers, booleans and [None], and besides them dates, decimals,
    UUIDs, dataclasses and objects with [__html__]; for an object of any
    other class, a [ChatCompletion] among them, it raises [TypeError]. *)
Definition jsonify_completion (c : completion) : outcome response :=
  match c with
  | ChatCompletion _ => Raise TypeError
  end.

Inductive http_method : Type := GET | POST.

(** ** Constants of the program *)

Definition newline : string := String "010"%char EmptyString.

Definition transfer_sentence : string :=
  newline ++
  "If the user requests a transfer, you can transfer them using the transferCall function.".

Definition no_instructions : string := "No instructions available.".

Definition transferCall_descriptor : json :=
  JObj [
    ("name", JStr "transferCall");
    ("description", JStr "Transfer the call to another phone number");
    ("parameters", JObj [
       ("type", JStr "object");
       ("properties", JObj [
          ("destination", JObj [
             ("type", JStr "string");
             ("description",
              JStr "The destination phone number to transfer the call to")])]);
       ("required", JArr [JStr "destination"])])].

Definition content_payload (text : string) : json :=
  JObj [("choices", JArr [JObj [("delta", JObj [("content", JStr text)])]])].

Definition function_call_payload (destination : json) : json :=
  JObj [("function_call", JObj [
     ("name", JStr "transferCall");
     ("arguments", JObj [("destination", destination)])])].

(** ** The call state store *)

(** [load_call_states] *)
Definition load_call_states : M (pydict json) :=
  fun w => (Return (call_states_file w), w).

(** [save_call_states] *)
Definition save_call_states (states : pydict json) : M unit :=
  (fun w => (Return tt, with_call_states_file states w)) ;;
  emit (SaveCallStates states).

(** ["start" if "start" in flow_nodes else list(flow_nodes.keys())[0]] *)
Definition default_node_name (nodes : pydict (pydict json)) : outcome json :=
  if dict_contains "start" nodes then Return (JStr "start")
  else match dict_keys nodes with
       | k :: _ => Return (JStr k)
       | [] => Raise IndexError
       end.

(** [get_current_node_name] *)
Definition get_current_node_name (call_id : string) : M json :=
  states <- load_call_states ;;
  let node_name := dict_get_default call_id JNull states in
  if negb (truthy node_name) then
    nodes <- the_flow_nodes ;;
    node_name <- lift (default_node_name nodes) ;;
    save_call_states (dict_setitem call_id node_name states) ;;
    ret node_name
  else
    ret node_name.

(** [set_current_node_name] *)
Definition set_current_node_name (call_id : string) (node_name : json) : M unit :=
  states <- load_call_states ;;
  save_call_states (dict_setitem call_id node_name states).

(** [get_available_functions] *)
Definition get_available_functions : M (list json) :=
  config <- the_assistant_config ;;
  if truthy (dict_get_default "forwardingPhoneNumber" JNull config)
  then ret [transferCall_descriptor]
  else ret [].

(** ** The system message *)

(** The one-character strings a list receives from [list += str]. *)
Definition characters (s : string) : list json :=
  map (fun c => JStr (String c EmptyString)) (list_ascii_of_string s).

(** [flow_nodes[node_name]["block"]["instruction"]], replaced. *)
Definition store_instruction (node_name : string) (v : json)
    (nodes : pydict (pydict json)) : pydict (pydict json) :=
  match dict_get node_name nodes with
  | Some node =>
      match dict_get "block" node with
      | Some (JObj block) =>
          dict_setitem node_name
            (dict_setitem "block" (JObj (dict_setitem "instruction" v block)) node)
            nodes
      | _ => nodes
      end
  | None => nodes
  end.

(** [system_message += "\nIf the user ..."], where [system_message] is the
    object held by the graph as instruction of node [node_name], or the
    literal default.  A string gives a new string.  A list is extended in
    place, so the instruction kept in the graph grows too.  Anything else
    cannot be added to a string. *)
Definition append_transfer_sentence (node_name : json) (next_prompt : json) : M json :=
  match next_prompt with
  | JStr s => ret (JStr (s ++ transfer_sentence))
  | JArr items =>
      let extended := JArr (items ++ characters transfer_sentence) in
      match node_name with
      | JStr n =>
          (fun w => (Return tt,
                     with_flow_nodes (store_instruction n extended (flow_nodes w)) w)) ;;
          ret extended
      | _ => ret extended
      end
  | _ => raise TypeError
  end.

(** ** The routes *)

Section Application.

(** [json.loads] on a string ([None] stands for [JSONDecodeError]) and
    [json.dumps]; both belong to Python's library. *)
Variable json_loads : string -> option json.
Variable json_dumps : json -> string.

(** [client.chat.completions.create] applied to the parameters, once for
    each shape of its result: a completion object, or a stream of chunks. *)
Variable create_completion : openai_params -> outcome completion.
Variable create_stream : openai_params -> outcome (list chunk).

(** A server-sent-event frame: [data: ], the payload dumped as JSON, and
    two newlines. *)
Definition sse (payload : json) : string :=
  "data: " ++ json_dumps payload ++ newline ++ newline.

(** The frame yielded for [delta.content], when it is not [None]. *)
Definition content_frames (d : delta_t) : list string :=
  match content d with
  | Some text => [sse (content_payload text)]
  | None => []
  end.

(** The body of the loop of [generate_streaming_response] on one chunk:
    the frames yielded, and the exception that leaves the loop, if any. *)
Definition stream_chunk (c : chunk) : M (list string * option exn) :=
  match choices c with
  | [] => ret ([], Some IndexError)
  | first :: _ =>
      let text := content_frames (delta first) in
      match function_call (delta first) with
      | None => ret (text, None)
      | Some fc =>
          match name fc with
          | Some n =>
              if n =? "transferCall" then
                match arguments fc with
                | None => ret (text, Some TypeError)
                | Some s =>
                    match json_loads s with
                    | None =>
                        emit (LogError "Failed to parse transferCall arguments") ;;
                        ret (text, None)
                    | Some (JObj fields) =>
                        config <- the_assistant_config ;;
                        match dict_get "forwardingPhoneNumber" config with
                        | None =>
                            ret (text,
                                 Some (KeyError (JStr "forwardingPhoneNumber")))
                        | Some forwarding =>
                            let destination :=
                              dict_get_default "destination" forwarding fields in
                            ret ((text ++ [sse (function_call_payload destination)])%list,
                                 None)
                        end
                    | Some _ => ret (text, Some AttributeError)
                    end
                end
              else ret (text, None)
          | None => ret (text, None)
          end
      end
  end.

(** [generate_streaming_response] *)
Fixpoint generate_streaming_response (stream_response : list chunk)
    : M (list string * option exn) :=
  match stream_response with
  | [] => ret ([], None)
  | c :: rest =>
      r <- stream_chunk c ;;
      match snd r with
      | Some e => ret r
      | None =>
          r' <- generate_streaming_response rest ;;
          ret ((fst r ++ fst r')%list, snd r')
      end
  end.

(** The handler [openai_advanced_custom_llm_route] is given in the steps it
    takes, in their order in the source.  [call_id] stands for
    [request_data['call']['id']]. *)

(** [block_data = current_node.get("block", {})] and
    [next_prompt = block_data.get("instruction", "No instructions available.")] *)
Definition next_prompt_of (current_node : pydict json) : outcome json :=
  let block_data := dict_get_default "block" (JObj []) current_node in
  py_get block_data "instruction" (JStr no_instructions).

(** [system_message = next_prompt], extended with the transfer sentence when
    [assistant_config["forwardingPhoneNumber"]] is true. *)
Definition build_system_message (current_node_name next_prompt : json) : M json :=
  config <- the_assistant_config ;;
  forwarding <- lift (py_lookup (JStr "forwardingPhoneNumber") config) ;;
  if truthy forwarding
  then append_transfer_sentence current_node_name next_prompt
  else ret next_prompt.

(** [messages]: the system entry, and [request_data['messages'][-1]] when the
    request has a true [messages]. *)
Definition build_messages (system_message : json) (request_data : pydict json)
    : outcome (list json) :=
  let system_entry := JObj [("role", JStr "system"); ("content", system_message)] in
  match dict_get "messages" request_data with
  | Some history =>
      if truthy history then
        match py_last history with
        | Return latest => Return [system_entry; latest]
        | Raise e => Raise e
        end
      else Return [system_entry]
  | None => Return [system_entry]
  end.

(** [openai_params], with [functions] and [function_call] added when
    [get_available_functions()] is not empty. *)
Definition assemble_openai_params (streaming : json) (msgs : list json)
    : M openai_params :=
  config <- the_assistant_config ;;
  model_section <- lift (py_lookup (JStr "model") config) ;;
  model_name <- lift (py_getitem model_section "model") ;;
  available <- get_available_functions ;;
  ret {| model := model_name;
         messages := msgs;
         max_tokens := 1000;
         temperature := (2 # 10)%Q;
         stream := streaming;
         functions :=
           match available with [] => None | _ :: _ => Some available end;
         function_call_mode :=
           match available with [] => None | _ :: _ => Some (JStr "auto") end |}.

(** The advance of the call: [destinations[0].get("stepName")] becomes the
    stored node when it is true and a key of the graph. *)
Definition advance_call_state (call_id : string) (current_node : pydict json)
    : M unit :=
  let destinations := dict_get_default "destinations" (JArr []) current_node in
  if truthy destinations then
    first <- lift (py_first destinations) ;;
    next_node_name <- lift (py_get first "stepName" JNull) ;;
    if truthy next_node_name then
      nodes <- the_flow_nodes ;;
      known <- lift (py_contains next_node_name nodes) ;;
      if known : bool
      then set_current_node_name call_id next_node_name
      else ret tt
    else ret tt
  else ret tt.

(** The handler up to the provider call. *)
Definition build_openai_params (call_id : string) (request_data : pydict json)
    : M openai_params :=
  let streaming := dict_get_default "stream" (JBool false) request_data in
  current_node_name <- get_current_node_name call_id ;;
  nodes <- the_flow_nodes ;;
  current_node <- lift (py_lookup current_node_name nodes) ;;
  next_prompt <- lift (next_prompt_of current_node) ;;
  system_message <- build_system_message current_node_name next_prompt ;;
  msgs <- lift (build_messages system_message request_data) ;;
  openai_params <- assemble_openai_params streaming msgs ;;
  advance_call_state call_id current_node ;;
  ret openai_params.

(** [openai_advanced_custom_llm_route]: the provider is called with the
    parameters; a stream is relayed frame by frame, a completion is handed
    to [jsonify]. *)
Definition openai_advanced_custom_llm_route (call_id : string)
    (request_data : pydict json) : M response :=
  openai_params <- build_openai_params call_id request_data ;;
  if truthy (stream openai_params) then
    emit (ProviderCall openai_params) ;;
    completion_stream <- lift (create_stream openai_params) ;;
    r <- generate_streaming_response completion_stream ;;
    ret (EventStream (fst r) (snd r))
  else
    emit (ProviderCall openai_params) ;;
    completion <- lift (create_completion openai_params) ;;
    lift (jsonify_completion completion).

(** [config]; [new_config] is the JSON object of the request body. *)
Definition config (method : http_method) (new_config : pydict json) : M response :=
  match method with
  | GET =>
      current <- the_assistant_config ;;
      ret (JsonResponse 200 (JObj current))
  | POST =>
      if truthy (JObj new_config) then
        (fun w => (Return tt,
                   with_assistant_config
                     (dict_update (assistant_config w) new_config) w)) ;;
        current <- the_assistant_config ;;
        (fun w => (Return tt, with_assistant_config_file current w)) ;;
        emit (DumpConfig current) ;;
        ret (JsonResponse 200
               (JObj [("status", JStr "success");
                      ("message", JStr "Configuration updated")]))
      else
        ret (JsonResponse 400
               (JObj [("status", JStr "error");
                      ("message", JStr "Invalid configuration")]))
  end.

End Application.

(** ** Concrete documents and collaborators, for the examples below *)

(** The configuration written at start-up when the file is absent. *)
Definition default_config : pydict json :=
  [("model", JObj [
      ("provider", JStr "openai");
      ("model", JStr "gpt-4o");
      ("messages", JArr [JObj [
         ("role", JStr "system");
         ("content",
          JStr "You are an assistant. When the user asks to be transferred, use the transferCall function.")]])]);
   ("forwardingPhoneNumber", JStr "+40761983263")].

(** The default pathway file as [load_pathways] returns it: one node,
    [start], whose destination is itself. *)
Definition default_pathways : pydict (pydict json) :=
  [("start",
    [("name", JStr "start");
     ("block", JObj [
        ("instruction",
         JStr "You are a helpful assistant. Help users with their questions and transfer them when requested.")]);
     ("destinations", JArr [JObj [("stepName", JStr "start")]])])].

(** Two nodes in a line: [start] leads to [end], which leads nowhere. *)
Definition two_step_pathways : pydict (pydict json) :=
  [("start", [("name", JStr "start");
              ("destinations", JArr [JObj [("stepName", JStr "end")]])]);
   ("end", [("name", JStr "end"); ("destinations", JArr [])])].

(** A graph with a node whose name is the empty string; [intro] points to it. *)
Definition unnamed_step_pathways : pydict (pydict json) :=
  [("intro", [("name", JStr "intro");
              ("block", JObj [("instruction", JStr "Welcome")]);
              ("destinations", JArr [JObj [("stepName", JStr "")]])]);
   ("", [("name", JStr ""); ("destinations", JArr [])])].

(** A graph without [start] whose first node has the empty name. *)
Definition unnamed_first_pathways : pydict (pydict json) :=
  [("", [("name", JStr ""); ("destinations", JArr [])]);
   ("next", [("name", JStr "next"); ("destinations", JArr [])])].

(** A node without [block], and one whose block has no [instruction]. *)
Definition bare_pathways : pydict (pydict json) :=
  [("start", [("name", JStr "start"); ("destinations", JArr [])]);
   ("other", [("name", JStr "other"); ("block", JObj [("label", JStr "x")])])].

(** A configuration that never mentions a forwarding number. *)
Definition config_without_forwarding : pydict json :=
  [("model", JObj [("provider", JStr "openai"); ("model", JStr "gpt-4o")])].

(** A configuration whose forwarding number is the empty string. *)
Definition config_empty_forwarding : pydict json :=
  [("model", JObj [("provider", JStr "openai"); ("model", JStr "gpt-4o")]);
   ("forwardingPhoneNumber", JStr "")].

(** A node whose instruction is a list of strings instead of a string. *)
Definition list_instruction_pathways : pydict (pydict json) :=
  [("start", [("name", JStr "start");
              ("block", JObj [("instruction", JArr [JStr "Hi"])]);
              ("destinations", JArr [])])].

(** A freshly started process. *)
Definition start_world (nodes : pydict (pydict json)) (config states : pydict json)
    : world :=
  {| flow_nodes := nodes;
     assistant_config := config;
     call_states_file := states;
     assistant_config_file := config;
     trace := [] |}.

(** The double quote character, and a quoted string. *)
Definition dquote : string := String (ascii_of_nat 34) EmptyString.

Definition quoted (s : string) : string := dquote ++ s ++ dquote.

(** [json.loads] on the few argument strings used below. *)
Definition sample_json_loads (s : string) : option json :=
  if s =? "{" ++ quoted "destination" ++ ": " ++ quoted "+15550100" ++ "}" then
    Some (JObj [("destination", JStr "+15550100")])
  else if s =? "{}" then Some (JObj [])
  else if s =? "[]" then Some (JArr [])
  else if s =? "null" then Some JNull
  else None.

(** [json.dumps] on values whose strings need no escaping. *)
Fixpoint sample_json_dumps (v : json) : string :=
  match v with
  | JNull => "null"
  | JBool true => "true"
  | JBool false => "false"
  | JNum n => NilZero.string_of_int (Z.to_int n)
  | JStr s => quoted s
  | JArr items =>
      "[" ++
      (fix elements (l : list json) : string :=
         match l with
         | [] => ""
         | [x] => sample_json_dumps x
         | x :: rest => sample_json_dumps x ++ ", " ++ elements rest
         end) items ++ "]"
  | JObj fields =>
      "{" ++
      (fix members (l : list (string * json)) : string :=
         match l with
         | [] => ""
         | [(k, x)] => quoted k ++ ": " ++ sample_json_dumps x
         | (k, x) :: rest => quoted k ++ ": " ++ sample_json_dumps x ++ ", " ++ members rest
         end) fields ++ "}"
  end.

(** A provider that answers, and one that is down. *)
Definition sample_create_completion (p : openai_params) : outcome completion :=
  Return (ChatCompletion
            (JObj [("id", JStr "chatcmpl-1"); ("object", JStr "chat.completion")])).

Definition text_chunk (text : string) : chunk :=
  {| choices := [{| delta := {| content := Some text; function_call := None |} |}] |}.

Definition transfer_chunk (args : string) : chunk :=
  {| choices :=
       [{| delta :=
             {| content := None;
                function_call :=
                  Some {| name := Some "transferCall"; arguments := Some args |}
             |} |}] |}.

Definition sample_create_stream (p : openai_params) : outcome (list chunk) :=
  Return [text_chunk "Hello"; transfer_chunk "{}"].

Definition failing_create_completion (p : openai_params) : outcome completion :=
  Raise (ProviderError "connection refused").

Definition failing_create_stream (p : openai_params) : outcome (list chunk) :=
  Raise (ProviderError "connection refused").

(** ** Loading the graph and starting the process *)

(** What loading a document gives: a value, an exception, or nothing that
    this development can say, when the document would make a graph with a
    key that is not a string. *)
Inductive loaded (A : Type) : Type :=
| Loaded (a : A)
| LoadRaises (e : exn)
| NotRepresented.
Arguments Loaded {A} a.
Arguments LoadRaises {A} e.
Arguments NotRepresented {A}.

(** The comprehension of [load_pathways], node after node: [node["name"]]
    is evaluated, then the node is put under that key.  A name that is a
    list or a dictionary cannot be hashed.  A name that is a number, a
    boolean or null would be a key that is not a string. *)
Fixpoint load_nodes (raw_nodes : list json) (nodes : pydict (pydict json))
    : loaded (pydict (pydict json)) :=
  match raw_nodes with
  | [] => Loaded nodes
  | node :: rest =>
      match node, py_getitem node "name" with
      | JObj fields, Return (JStr node_name) =>
          load_nodes rest (dict_setitem node_name fields nodes)
      | _, Return (JArr _ | JObj _) => LoadRaises TypeError
      | _, Return _ => NotRepresented
      | _, Raise e => LoadRaises e
      end
  end.

(** [load_pathways], on the document that [json.load] read from the
    pathways file.  Iterating a dictionary or a string gives strings, which
    cannot be indexed with ["name"]; a number, a boolean or null cannot be
    iterated. *)
Definition load_pathways (document : json) : loaded (pydict (pydict json)) :=
  match document with
  | JArr raw_nodes => load_nodes raw_nodes []
  | JObj [] | JStr EmptyString => Loaded []
  | _ => LoadRaises TypeError
  end.

(** The pathways written at start-up when the file is absent. *)
Definition default_pathways_document : json :=
  JArr [JObj [
    ("name", JStr "start");
    ("block", JObj [
       ("instruction",
        JStr "You are a helpful assistant. Help users with their questions and transfer them when requested.")]);
    ("destinations", JArr [JObj [("stepName", JStr "start")]])]].

(** The three files before start-up, each with the document it holds, if it
    exists; and after start-up, when they all exist.  The call states and
    the configuration are JSON objects. *)
Record files : Type := {
  call_states_document : option (pydict json);
  assistant_config_document : option (pydict json);
  pathways_document : option json
}.

Record documents : Type := {
  call_states : pydict json;
  configuration : pydict json;
  pathways : json
}.

(** The three [if not os.path.exists(...)] blocks: a file that is absent is
    written with its default, a file that exists is left alone. *)
Definition ensure_files (fs : files) : documents :=
  {| call_states :=
       match call_states_document fs with Some d => d | None => [] end;
     configuration :=
       match assistant_config_document fs with
       | Some d => d
       | None => default_config
       end;
     pathways :=
       match pathways_document fs with
       | Some d => d
       | None => default_pathways_document
       end |}.

(** The files as they are found at the next start. *)
Definition found (ds : documents) : files :=
  {| call_states_document := Some (call_states ds);
     assistant_config_document := Some (configuration ds);
     pathways_document := Some (pathways ds) |}.

(** What the module does when it is imported: the files are made sure of,
    then [assistant_config] and [flow_nodes] are loaded from them. *)
Definition start_up (fs : files) : documents * loaded world :=
  let ds := ensure_files fs in
  (ds,
   match load_pathways (pathways ds) with
   | Loaded nodes =>
       Loaded {| flow_nodes := nodes;
                 assistant_config := configuration ds;
                 call_states_file := call_states ds;
                 assistant_config_file := configuration ds;
                 trace := [] |}
   | LoadRaises e => LoadRaises e
   | NotRepresented => NotRepresented
   end).

(** ** What a step leaves alone *)

(** [keeps R m]: whatever [m] returns or raises, the world it leaves is
    related by [R] to the world it started in. *)
Definition keeps {A} (R : world -> world -> Prop) (m : M A) : Prop :=
  forall w, R w (snd (m w)).

(** What a request for call [call_id] may change: the entry of that call in
    the store, entries that were not there, the instructions inside the
    graph, and the trace, which only grows. *)
Record chat_frame (call_id : string) (w w' : world) : Prop := {
  frame_config : assistant_config w' = assistant_config w;
  frame_config_file : assistant_config_file w' = assistant_config_file w;
  frame_nodes : dict_keys (flow_nodes w') = dict_keys (flow_nodes w);
  frame_others :
    forall other, other <> call_id ->
      dict_get other (call_states_file w') = dict_get other (call_states_file w);
  frame_calls :
    forall k, dict_contains k (call_states_file w) = true ->
      dict_contains k (call_states_file w') = true;
  frame_trace : exists events, trace w' = (trace w ++ events)%list
}.

(** * Properties *)

(** ** Dictionaries *)

Section DictFacts.
Context {V : Type}.
Implicit Types (d other : pydict V) (k : string) (v : V).

Lemma dict_get_setitem_same d k v :
  dict_get k (dict_setitem k v d) = Some v.
Proof.
  induction d as [|[k' v'] rest IH]; simpl.
  - now rewrite String.eqb_refl.
  - destruct (k' =? k) eqn:E; simpl; rewrite E; [reflexivity | exact IH].
Qed.

Lemma dict_get_setitem_other d k k' v :
  k <> k' -> dict_get k' (dict_setitem k v d) = dict_get k' d.
Proof.
  intros Hne. induction d as [|[k0 v0] rest IH]; simpl.
  - apply String.eqb_neq in Hne. now rewrite Hne.
  - destruct (k0 =? k) eqn:E; simpl.
    + apply String.eqb_eq in E. subst k0.
      apply String.eqb_neq in Hne. now rewrite Hne.
    + now rewrite IH.
Qed.

Lemma dict_contains_setitem d k k' v :
  dict_contains k' (dict_setitem k v d) = (k =? k') || dict_contains k' d.
Proof.
  unfold dict_contains. destruct (String.eqb_spec k k') as [->|Hne]; simpl.
  - now rewrite dict_get_setitem_same.
  - now rewrite dict_get_setitem_other.
Qed.

Lemma dict_keys_setitem_present d k v :
  dict_contains k d = true -> dict_keys (dict_setitem k v d) = dict_keys d.
Proof.
  unfold dict_contains, dict_keys.
  induction d as [|[k' v'] rest IH]; simpl; [discriminate|].
  destruct (k' =? k) eqn:E; simpl; intros H; [reflexivity|].
  now rewrite IH.
Qed.

Lemma dict_setitem_present_keeps_contains d k k' v :
  dict_contains k d = true ->
  dict_contains k' (dict_setitem k v d) = dict_contains k' d.
Proof.
  intros H. rewrite dict_contains_setitem.
  destruct (String.eqb_spec k k') as [->|Hne]; simpl; [now rewrite H | reflexivity].
Qed.

(** Assigning a key twice keeps the second value only. *)
Lemma dict_setitem_twice d k v v' :
  dict_setitem k v (dict_setitem k v' d) = dict_setitem k v d.
Proof.
  induction d as [|[k0 v0] rest IH]; simpl.
  - now rewrite String.eqb_refl.
  - destruct (k0 =? k) eqn:E; simpl; rewrite E; [reflexivity | now rewrite IH].
Qed.

(** Assignments to different keys commute once one of the keys is there. *)
Lemma dict_setitem_swap d k1 k2 v1 v2 :
  k1 <> k2 -> dict_contains k1 d = true ->
  dict_setitem k1 v1 (dict_setitem k2 v2 d) = dict_setitem k2 v2 (dict_setitem k1 v1 d).
Proof.
  intros Hne. unfold dict_contains.
  induction d as [|[k0 v0] rest IH]; simpl; [discriminate|].
  destruct (k0 =? k1) eqn:E1; destruct (k0 =? k2) eqn:E2; simpl;
    rewrite ?E1, ?E2; try reflexivity.
  - apply String.eqb_eq in E1, E2. congruence.
  - intros H. now rewrite IH.
Qed.

Lemma dict_contains_update d other k :
  dict_contains k d = true -> dict_contains k (dict_update d other) = true.
Proof.
  unfold dict_update. revert d.
  induction other as [|[k0 v0] rest IH]; simpl; intros d H; [exact H|].
  apply IH. rewrite dict_contains_setitem, H. apply orb_true_r.
Qed.

Lemma dict_update_snoc d other k v :
  dict_update d (other ++ [(k, v)])%list = dict_setitem k v (dict_update d other).
Proof. unfold dict_update. now rewrite fold_left_app. Qed.

(** Every key of [other] is a key of [d.update(other)]. *)
Lemma dict_update_contains_keys d other k :
  In k (dict_keys other) -> dict_contains k (dict_update d other) = true.
Proof.
  unfold dict_update. revert d.
  induction other as [|[k0 v0] rest IH]; simpl; intros d; [tauto|].
  intros [->|Hin].
  - apply (dict_contains_update _ rest).
    rewrite dict_contains_setitem, String.eqb_refl. reflexivity.
  - now apply IH.
Qed.

(** An earlier assignment to [k] is forgotten when [k] is assigned again
    after an update whose keys are all present. *)
Lemma dict_update_absorbs d other k v v' :
  (forall k0, In k0 (dict_keys other) -> dict_contains k0 d = true) ->
  dict_setitem k v (dict_update (dict_setitem k v' d) other)
  = dict_setitem k v (dict_update d other).
Proof.
  unfold dict_update. revert d.
  induction other as [|[k0 v0] rest IH]; simpl; intros d Hkeys.
  - apply dict_setitem_twice.
  - destruct (String.eqb_spec k0 k) as [->|Hne].
    + now rewrite dict_setitem_twice.
    + rewrite dict_setitem_swap by (auto; apply Hkeys; now left).
      apply IH. intros k1 Hin.
      rewrite dict_contains_setitem. rewrite (Hkeys k1) by now right.
      apply orb_true_r.
Qed.

(** [d.update(other)] a second time changes nothing. *)
Lemma dict_update_idempotent d other :
  dict_update (dict_update d other) other = dict_update d other.
Proof.
  induction other as [|[k v] rest IH] using rev_ind; [reflexivity|].
  rewrite !dict_update_snoc.
  rewrite dict_update_absorbs.
  - now rewrite IH.
  - intros k0 Hin. now apply dict_update_contains_keys.
Qed.

End DictFacts.

(** ** Running a computation: what a successful step tells *)

Lemma bind_Return_inv {A B} (m : M A) (f : A -> M B) w b w' :
  bind m f w = (Return b, w') ->
  exists a w1, m w = (Return a, w1) /\ f a w1 = (Return b, w').
Proof.
  unfold bind. destruct (m w) as [[a|e] w1]; intros H; [eauto | discriminate].
Qed.

Lemma lift_Return_inv {A} (o : outcome A) w a w' :
  lift o w = (Return a, w') -> o = Return a /\ w' = w.
Proof. unfold lift. intros H. now inversion H. Qed.

Lemma ret_Return_inv {A} (x : A) w a w' :
  ret x w = (Return a, w') -> a = x /\ w' = w.
Proof. unfold ret. intros H. now inversion H. Qed.

(** Takes a successful run apart, one step after the other. *)
Ltac run_inv H :=
  repeat match type of H with
  | bind _ _ _ = (Return _, _) =>
      let a := fresh "a" in
      let w := fresh "w" in
      let Hstep := fresh "Hstep" in
      apply bind_Return_inv in H; destruct H as (a & w & Hstep & H)
  end.

Lemma truthy_JStr s : truthy (JStr s) = true <-> s <> "".
Proof.
  simpl. destruct (String.eqb_spec s ""); simpl; split; congruence.
Qed.

Lemma truthy_JNull_default (o : option json) :
  truthy (match o with Some v => v | None => JNull end) = true ->
  exists v, o = Some v /\ truthy v = true.
Proof. destruct o; simpl; [eauto | discriminate]. Qed.

(** ** The call state store *)

Lemma save_call_states_run states w :
  save_call_states states w =
  (Return tt, with_events [SaveCallStates states] (with_call_states_file states w)).
Proof. reflexivity. Qed.

(** [get_current_node_name] in one equation: a true stored value is returned
    as it is; otherwise the default is computed, written and returned. *)
Lemma get_current_node_name_run call_id w :
  get_current_node_name call_id w =
  let stored := dict_get_default call_id JNull (call_states_file w) in
  if truthy stored then (Return stored, w)
  else match default_node_name (flow_nodes w) with
       | Return d =>
           (Return d,
            snd (save_call_states (dict_setitem call_id d (call_states_file w)) w))
       | Raise e => (Raise e, w)
       end.
Proof.
  unfold get_current_node_name, bind, load_call_states, the_flow_nodes, lift. simpl.
  destruct (truthy (dict_get_default call_id JNull (call_states_file w))); simpl.
  - reflexivity.
  - destruct (default_node_name (flow_nodes w)); reflexivity.
Qed.

Lemma default_node_name_is_string nodes d :
  default_node_name nodes = Return d -> exists k, d = JStr k.
Proof.
  unfold default_node_name.
  destruct (dict_contains "start" nodes); [intros [= <-]; eauto|].
  destruct (dict_keys nodes); [discriminate | intros [= <-]; eauto].
Qed.

(** Whatever [get_current_node_name] returns is what the store then holds,
    and only the store and the trace may have changed. *)
Lemma get_current_node_name_stored call_id w v w' :
  get_current_node_name call_id w = (Return v, w') ->
  dict_get call_id (call_states_file w') = Some v /\
  flow_nodes w' = flow_nodes w /\
  assistant_config w' = assistant_config w /\
  assistant_config_file w' = assistant_config_file w.
Proof.
  rewrite get_current_node_name_run. cbv zeta. unfold dict_get_default.
  destruct (truthy _) eqn:Ht.
  - intros [= <- <-]. apply truthy_JNull_default in Ht as (v & Hv & _).
    rewrite Hv. auto.
  - destruct (default_node_name (flow_nodes w)) as [d|e]; [|discriminate].
    rewrite save_call_states_run. simpl. intros [= <- <-]. simpl.
    rewrite dict_get_setitem_same. auto.
Qed.

Lemma set_current_node_name_run call_id node_name w :
  set_current_node_name call_id node_name w =
  save_call_states (dict_setitem call_id node_name (call_states_file w)) w.
Proof. reflexivity. Qed.

(** ** The steps of the handler *)

Lemma store_instruction_contains n v nodes k :
  dict_contains k (store_instruction n v nodes) = dict_contains k nodes.
Proof.
  unfold store_instruction.
  destruct (dict_get n nodes) as [node|] eqn:Hn; [|reflexivity].
  destruct (dict_get "block" node) as [[| | | | |block]|]; try reflexivity.
  apply dict_setitem_present_keeps_contains.
  unfold dict_contains. now rewrite Hn.
Qed.

(** The system message step leaves the store, the configuration and the
    trace alone, and the graph keeps its keys. *)
Lemma build_system_message_frame node_name prompt w s w' :
  build_system_message node_name prompt w = (Return s, w') ->
  call_states_file w' = call_states_file w /\
  assistant_config w' = assistant_config w /\
  assistant_config_file w' = assistant_config_file w /\
  trace w' = trace w /\
  forall k, dict_contains k (flow_nodes w') = dict_contains k (flow_nodes w).
Proof.
  unfold build_system_message, bind, the_assistant_config, lift. simpl.
  destruct (dict_get "forwardingPhoneNumber" (assistant_config w)) as [fwd|];
    [|discriminate].
  destruct (truthy fwd).
  - unfold append_transfer_sentence.
    destruct prompt as [| | |s0|items|]; try discriminate.
    + intros [= <- <-]. auto.
    + destruct node_name as [| | |n| |]; unfold bind, ret; simpl;
        intros [= <- <-]; simpl; auto using store_instruction_contains.
  - intros [= <- <-]. auto.
Qed.

(** On a string the step is pure: the sentence is appended exactly when the
    forwarding number is true. *)
Lemma build_system_message_string node_name s w fwd :
  dict_get "forwardingPhoneNumber" (assistant_config w) = Some fwd ->
  build_system_message node_name (JStr s) w =
  (Return (JStr (if truthy fwd then s ++ transfer_sentence else s)), w).
Proof.
  intros Hf. unfold build_system_message, bind, the_assistant_config, lift. simpl.
  rewrite Hf. destruct (truthy fwd); reflexivity.
Qed.

(** Without a true forwarding number the prompt is used as it is. *)
Lemma build_system_message_plain node_name prompt w s w' :
  truthy (dict_get_default "forwardingPhoneNumber" JNull (assistant_config w)) = false ->
  build_system_message node_name prompt w = (Return s, w') ->
  s = prompt /\ w' = w.
Proof.
  unfold build_system_message, bind, the_assistant_config, lift, dict_get_default.
  simpl.
  destruct (dict_get "forwardingPhoneNumber" (assistant_config w)) as [fwd|];
    [|discriminate].
  intros ->. intros [= <- <-]. auto.
Qed.

(** The step succeeds only if the configuration has the key at all. *)
Lemma build_system_message_needs_key node_name prompt w s w' :
  build_system_message node_name prompt w = (Return s, w') ->
  exists fwd, dict_get "forwardingPhoneNumber" (assistant_config w) = Some fwd.
Proof.
  unfold build_system_message, bind, the_assistant_config, lift. simpl.
  destruct (dict_get "forwardingPhoneNumber" (assistant_config w)) as [fwd|];
    [eauto | discriminate].
Qed.

Lemma get_available_functions_run w :
  get_available_functions w =
  (Return (if truthy (dict_get_default "forwardingPhoneNumber" JNull
                        (assistant_config w))
           then [transferCall_descriptor] else []), w).
Proof.
  unfold get_available_functions, bind, the_assistant_config. simpl.
  now destruct (truthy _).
Qed.

(** What the assembled parameters hold. *)
Lemma assemble_openai_params_inv streaming msgs w p w' :
  assemble_openai_params streaming msgs w = (Return p, w') ->
  w' = w /\
  messages p = msgs /\
  stream p = streaming /\
  max_tokens p = 1000%Z /\
  functions p =
    (if truthy (dict_get_default "forwardingPhoneNumber" JNull (assistant_config w))
     then Some [transferCall_descriptor] else None) /\
  function_call_mode p =
    (if truthy (dict_get_default "forwardingPhoneNumber" JNull (assistant_config w))
     then Some (JStr "auto") else None).
Proof.
  unfold assemble_openai_params. intros H. run_inv H.
  unfold the_assistant_config in Hstep. injection Hstep as <- <-.
  apply lift_Return_inv in Hstep0 as [_ ->].
  apply lift_Return_inv in Hstep1 as [_ ->].
  rewrite get_available_functions_run in Hstep2. injection Hstep2 as <- <-.
  apply ret_Return_inv in H as [-> ->]. simpl.
  destruct (truthy _); auto 10.
Qed.

(** The advance on a node whose destinations are a non-empty list. *)
Lemma advance_call_state_first call_id node first rest w :
  dict_get "destinations" node = Some (JArr (first :: rest)) ->
  advance_call_state call_id node w =
  match py_get first "stepName" JNull with
  | Return next =>
      if truthy next then
        match py_contains next (flow_nodes w) with
        | Return true =>
            save_call_states (dict_setitem call_id next (call_states_file w)) w
        | Return false => (Return tt, w)
        | Raise e => (Raise e, w)
        end
      else (Return tt, w)
  | Raise e => (Raise e, w)
  end.
Proof.
  intros Hd. unfold advance_call_state, dict_get_default. rewrite Hd. simpl.
  unfold bind, lift, the_flow_nodes. simpl.
  destruct (py_get first "stepName" JNull) as [next|e]; [|reflexivity].
  destruct (truthy next); [|reflexivity].
  destruct (py_contains next (flow_nodes w)) as [[|]|e]; reflexivity.
Qed.

(** The advance touches nothing but the store and the trace, and the trace
    grows by writes of the store only. *)
Lemma advance_call_state_frame call_id node w r w' :
  advance_call_state call_id node w = (r, w') ->
  flow_nodes w' = flow_nodes w /\
  assistant_config w' = assistant_config w /\
  assistant_config_file w' = assistant_config_file w /\
  (w' = w \/
   exists next,
     w' = snd (save_call_states
                 (dict_setitem call_id next (call_states_file w)) w)).
Proof.
  unfold advance_call_state.
  destruct (truthy _); [|intros [= <- <-]; auto].
  unfold bind, lift, the_flow_nodes. simpl.
  destruct (py_first _) as [first|e]; [|intros [= <- <-]; auto].
  destruct (py_get first "stepName" JNull) as [next|e]; [|intros [= <- <-]; auto].
  destruct (truthy next); [|intros [= <- <-]; auto].
  destruct (py_contains next (flow_nodes w)) as [[|]|e];
    intros [= <- <-]; auto.
  simpl. repeat split; auto. right. now exists next.
Qed.

(** A request that reaches the provider went through every step. *)
Lemma build_openai_params_inv call_id request_data w p w' :
  build_openai_params call_id request_data w = (Return p, w') ->
  exists cur node w0 prompt system_message w1 msgs,
    get_current_node_name call_id w = (Return (JStr cur), w0) /\
    dict_get cur (flow_nodes w) = Some node /\
    next_prompt_of node = Return prompt /\
    build_system_message (JStr cur) prompt w0 = (Return system_message, w1) /\
    build_messages system_message request_data = Return msgs /\
    assemble_openai_params
      (dict_get_default "stream" (JBool false) request_data) msgs w1
    = (Return p, w1) /\
    advance_call_state call_id node w1 = (Return tt, w').
Proof.
  unfold build_openai_params. intros H. run_inv H.
  rename a into name, w0 into wa, Hstep into Hname.
  unfold the_flow_nodes in Hstep0. injection Hstep0 as <- <-.
  apply lift_Return_inv in Hstep1 as [Hlook ->].
  apply lift_Return_inv in Hstep2 as [Hprompt ->].
  apply lift_Return_inv in Hstep4 as [Hmsgs ->].
  pose proof (assemble_openai_params_inv _ _ _ _ _ Hstep5) as [-> _].
  apply ret_Return_inv in H as [-> ->]. destruct a6.
  destruct (get_current_node_name_stored _ _ _ _ Hname) as (_ & Hg & _).
  unfold py_lookup in Hlook.
  destruct name as [| | |cur| |]; try discriminate.
  destruct (dict_get cur (flow_nodes wa)) as [node|] eqn:Hcur; [|discriminate].
  injection Hlook as <-. rewrite Hg in Hcur.
  exists cur, node, wa, a2, a3, w4, a4. auto 10.
Qed.

(** ** The stream *)

Section Properties.

Variable json_loads : string -> option json.
Variable json_dumps : json -> string.
Variable create_completion : openai_params -> outcome completion.
Variable create_stream : openai_params -> outcome (list chunk).

Local Abbreviation route :=
  (openai_advanced_custom_llm_route
     json_loads json_dumps create_completion create_stream).
Local Abbreviation one_chunk := (stream_chunk json_loads json_dumps).
Local Abbreviation generator := (generate_streaming_response json_loads json_dumps).

(** One chunk never raises into the caller of the generator; it only adds
    log records to the trace. *)
Lemma stream_chunk_frame c w :
  exists frames failure logs,
    one_chunk c w = (Return (frames, failure), with_events logs w).
Proof.
  assert (Hnil : forall r, (Return r, w) = (Return r, with_events [] w)
                           :> outcome (list string * option exn) * world).
  { intros r. unfold with_events. rewrite app_nil_r. now destruct w. }
  unfold stream_chunk.
  destruct (choices c) as [|first rest]; [do 3 eexists; apply Hnil|].
  destruct (function_call (delta first)) as [fc|]; [|do 3 eexists; apply Hnil].
  destruct (name fc) as [n|]; [|do 3 eexists; apply Hnil].
  destruct (n =? "transferCall"); [|do 3 eexists; apply Hnil].
  destruct (arguments fc) as [s|]; [|do 3 eexists; apply Hnil].
  destruct (json_loads s) as [[| | | | |fields]|];
    try (do 3 eexists; apply Hnil).
  - unfold bind, the_assistant_config, ret.
    destruct (dict_get "forwardingPhoneNumber" (assistant_config w));
      do 3 eexists; apply Hnil.
  - do 3 eexists. unfold bind, emit, ret. reflexivity.
Qed.

Lemma with_events_app l l' w :
  with_events l' (with_events l w) = with_events (l ++ l')%list w.
Proof. unfold with_events. simpl. now rewrite app_assoc. Qed.

Lemma generate_streaming_response_frame chunks w :
  exists frames failure logs,
    generator chunks w
    = (Return (frames, failure), with_events logs w).
Proof.
  revert w. induction chunks as [|c rest IH]; intros w; simpl.
  - exists [], None, []. unfold ret, with_events. rewrite app_nil_r. now destruct w.
  - unfold bind.
    destruct (stream_chunk_frame c w) as (frames & failure & logs & Hc).
    rewrite Hc. simpl. destruct failure as [e|].
    + do 3 eexists. reflexivity.
    + destruct (IH (with_events logs w)) as (frames' & failure' & logs' & Hr).
      rewrite Hr. unfold ret. simpl. rewrite with_events_app.
      do 3 eexists. reflexivity.
Qed.

(** ** The route after the parameters are built *)

(** Once the parameters are built the provider is called with them, and
    nothing after that writes the store, the graph or the configuration. *)
Lemma route_after_build call_id request_data w p w1 :
  build_openai_params call_id request_data w = (Return p, w1) ->
  exists out later,
    route call_id request_data w = (out, with_events (ProviderCall p :: later) w1) /\
    (forall e,
       (if truthy (stream p) then create_stream p = Raise e
        else create_completion p = Raise e) ->
       out = Raise e /\ later = []).
Proof.
  intros Hb. unfold openai_advanced_custom_llm_route, bind. rewrite Hb.
  destruct (truthy (stream p)); unfold bind, emit, lift; simpl.
  - destruct (create_stream p) as [chunks|e].
    + destruct (generate_streaming_response_frame chunks
                  (with_events [ProviderCall p] w1))
        as (frames & failure & logs & Hg).
      rewrite Hg. unfold ret. rewrite with_events_app. simpl.
      do 2 eexists. split; [reflexivity | discriminate].
    + do 2 eexists. split; [reflexivity|]. now intros e' [= <-].
  - destruct (create_completion p) as [completion|e].
    + do 2 eexists. split; [reflexivity | discriminate].
    + do 2 eexists. split; [reflexivity|]. now intros e' [= <-].
Qed.

(** A request that fails before the provider call fails the route the same
    way, and the provider is not called. *)
Lemma route_build_raises call_id request_data w e w1 :
  build_openai_params call_id request_data w = (Raise e, w1) ->
  route call_id request_data w = (Raise e, w1).
Proof.
  intros Hb. unfold openai_advanced_custom_llm_route, bind. now rewrite Hb.
Qed.

(** The world a request is dispatched in depends on the call and on the
    process state only, not on the rest of the request. *)
Lemma build_openai_params_world call_id request_data request_data' w p p' w1 w1' :
  build_openai_params call_id request_data w = (Return p, w1) ->
  build_openai_params call_id request_data' w = (Return p', w1') ->
  w1' = w1.
Proof.
  intros H H'.
  apply build_openai_params_inv in H
    as (cur & node & w0 & prompt & sm & wa & msgs
        & Hget & Hnode & Hprompt & Hsys & _ & _ & Hadv).
  apply build_openai_params_inv in H'
    as (cur' & node' & w0' & prompt' & sm' & wa' & msgs'
        & Hget' & Hnode' & Hprompt' & Hsys' & _ & _ & Hadv').
  rewrite Hget in Hget'. injection Hget' as <- <-.
  rewrite Hnode in Hnode'. injection Hnode' as <-.
  rewrite Hprompt in Hprompt'. injection Hprompt' as <-.
  rewrite Hsys in Hsys'. injection Hsys' as <- <-.
  rewrite Hadv in Hadv'. now injection Hadv'.
Qed.

Lemma route_store call_id request_data w p w1 :
  build_openai_params call_id request_data w = (Return p, w1) ->
  call_states_file (snd (route call_id request_data w)) = call_states_file w1.
Proof.
  intros Hb. destruct (route_after_build _ _ _ _ _ Hb) as (out & later & Hr & _).
  now rewrite Hr.
Qed.

End Properties.

(** ** Advancing the call *)

(** C1 (as amended).  For a request that reaches the provider while the
    current node of its call has a non-empty destination list: when the
    first destination's [stepName] is a non-empty string, the node stored
    for the call after the dispatch is that name if and only if the name is
    a key of the graph; when the [stepName] is missing, empty, not a string
    or not a key of the graph, the store is as node resolution left it and
    holds the current node for the call.  The store after the dispatch is the
    same for every other dispatched request of that call in that state,
    whatever its messages and whatever the provider returns. *)
Theorem dispatch_moves_to_first_destination
    json_loads json_dumps create_completion create_stream
    call_id request_data w p w1 cur w0 node first rest :
  build_openai_params call_id request_data w = (Return p, w1) ->
  get_current_node_name call_id w = (Return (JStr cur), w0) ->
  dict_get cur (flow_nodes w) = Some node ->
  dict_get "destinations" node = Some (JArr (first :: rest)) ->
  let w' := snd (openai_advanced_custom_llm_route
                   json_loads json_dumps create_completion create_stream
                   call_id request_data w) in
  let stored := dict_get call_id (call_states_file w') in
  (forall n, py_get first "stepName" JNull = Return (JStr n) -> n <> "" ->
             (stored = Some (JStr n) <-> dict_contains n (flow_nodes w) = true)) /\
  ((forall n, py_get first "stepName" JNull = Return (JStr n) -> n <> "" ->
              dict_contains n (flow_nodes w) = false) ->
   call_states_file w' = call_states_file w0 /\ stored = Some (JStr cur)) /\
  (forall json_loads' json_dumps' create_completion' create_stream'
          request_data' p' w1',
     build_openai_params call_id request_data' w = (Return p', w1') ->
     call_states_file
       (snd (openai_advanced_custom_llm_route
               json_loads' json_dumps' create_completion' create_stream'
               call_id request_data' w))
     = call_states_file w').
Proof.
  intros Hb Hget Hnode Hdest w' stored. subst stored w'.
  rewrite (route_store _ _ _ _ _ _ _ _ _ Hb).
  pose proof Hb as Hinv.
  apply build_openai_params_inv in Hinv
    as (cur' & node' & w0' & prompt & sm & wa & msgs
        & Hget' & Hnode' & _ & Hsys & _ & _ & Hadv).
  rewrite Hget in Hget'. injection Hget' as <- <-.
  rewrite Hnode in Hnode'. injection Hnode' as <-.
  destruct (get_current_node_name_stored _ _ _ _ Hget) as (Hstored & Hg0 & _).
  destruct (build_system_message_frame _ _ _ _ _ Hsys)
    as (Hfile & _ & _ & _ & Hkeys).
  assert (Hin : forall n, dict_contains n (flow_nodes wa) = dict_contains n (flow_nodes w)).
  { intros n. now rewrite Hkeys, Hg0. }
  assert (Hcur : dict_contains cur (flow_nodes w) = true).
  { unfold dict_contains. now rewrite Hnode. }
  rewrite (advance_call_state_first _ _ _ _ _ Hdest) in Hadv.
  assert (Hstay : w1 = wa ->
                  call_states_file w1 = call_states_file w0 /\
                  dict_get call_id (call_states_file w1) = Some (JStr cur)).
  { intros ->. rewrite Hfile. auto. }
  split; [|split].
  - intros n Hstep Hne. rewrite Hstep in Hadv.
    rewrite (proj2 (truthy_JStr n) Hne) in Hadv. simpl in Hadv.
    rewrite Hin in Hadv.
    destruct (dict_contains n (flow_nodes w)) eqn:Hn.
    + rewrite save_call_states_run in Hadv. injection Hadv as <-. simpl.
      rewrite dict_get_setitem_same. tauto.
    + injection Hadv as <-. destruct (Hstay eq_refl) as [_ ->].
      split; [|discriminate]. intros [= <-]. congruence.
  - intros Hnone. apply Hstay.
    destruct (py_get first "stepName" JNull) as [next|e]; [|discriminate].
    destruct (truthy next) eqn:Ht; [|now injection Hadv].
    destruct next as [|b|z|n|items|fields]; simpl in Hadv;
      try discriminate; try (now injection Hadv).
    rewrite Hin, (Hnone n eq_refl) in Hadv; [now injection Hadv|].
    now apply truthy_JStr.
  - intros jl jd cc cs request_data' p' w1' Hb'.
    rewrite (route_store _ _ _ _ _ _ _ _ _ Hb').
    now rewrite (build_openai_params_world _ _ _ _ _ _ _ _ Hb Hb').
Qed.

(** In the two-node line a first request for call [x] is resolved at
    [start] and leaves the call at [end]. *)
Lemma dispatch_moves_to_first_destination_witness :
  let w := start_world two_step_pathways default_config [] in
  let w' := snd (openai_advanced_custom_llm_route
                   sample_json_loads sample_json_dumps
                   sample_create_completion sample_create_stream "x" [] w) in
  dict_get "x" (call_states_file w') = Some (JStr "end") <->
  dict_contains "end" (flow_nodes w) = true.
Proof.
  intros w w'.
  refine (proj1 (dispatch_moves_to_first_destination
                   sample_json_loads sample_json_dumps
                   sample_create_completion sample_create_stream
                   "x" [] w _ _ "start" _ _ (JObj [("stepName", JStr "end")]) []
                   _ _ _ _) "end" _ _).
  - vm_compute. reflexivity.
  - vm_compute. reflexivity.
  - reflexivity.
  - reflexivity.
  - reflexivity.
  - discriminate.
Defined.

(** C1 (as stated) fails when the first destination names the node whose
    name is the empty string: the name is a key of the graph, the request is
    dispatched, and the call stays at [intro]. *)
Lemma empty_step_name_is_not_followed :
  let w := start_world unnamed_step_pathways default_config [] in
  let w' := snd (openai_advanced_custom_llm_route
                   sample_json_loads sample_json_dumps
                   sample_create_completion sample_create_stream "abc" [] w) in
  (exists p w1, build_openai_params "abc" [] w = (Return p, w1)) /\
  fst (get_current_node_name "abc" w) = Return (JStr "intro") /\
  dict_get_default "destinations" (JArr [])
    (dict_get_default "intro" [] (flow_nodes w))
  = JArr [JObj [("stepName", JStr "")]] /\
  dict_contains "" (flow_nodes w) = true /\
  dict_get "abc" (call_states_file w') = Some (JStr "intro") /\
  ~ (dict_get "abc" (call_states_file w') = Some (JStr "")
     <-> dict_contains "" (flow_nodes w) = true).
Proof.
  intros w w'. repeat split.
  - do 2 eexists. vm_compute. reflexivity.
  - intros [_ H]. specialize (H eq_refl). vm_compute in H. discriminate.
Defined.

(** ** Lazy creation of the call state *)

(** C2 (as amended).  For a call identifier that is not in the store,
    [get_current_node_name] returns [start] when the graph has a node of that
    name and otherwise the first key of the graph; it writes the assignment
    to the store before it returns; a second call with the same identifier
    returns the same node and leaves the store as it is.  The second call
    reads the stored value back, without computing the default or writing
    again, whenever the node's name is not the empty string. *)
Theorem unseen_call_gets_default_node call_id w d :
  dict_get call_id (call_states_file w) = None ->
  (dict_contains "start" (flow_nodes w) = true /\ d = "start") \/
  (dict_contains "start" (flow_nodes w) = false /\
   exists rest, dict_keys (flow_nodes w) = d :: rest) ->
  let states := dict_setitem call_id (JStr d) (call_states_file w) in
  let w1 := with_events [SaveCallStates states] (with_call_states_file states w) in
  get_current_node_name call_id w = (Return (JStr d), w1) /\
  dict_get call_id (call_states_file w1) = Some (JStr d) /\
  fst (get_current_node_name call_id w1) = Return (JStr d) /\
  call_states_file (snd (get_current_node_name call_id w1)) = call_states_file w1 /\
  (d <> "" -> get_current_node_name call_id w1 = (Return (JStr d), w1)).
Proof.
  intros Hunseen Hdefault states w1.
  assert (Hd : default_node_name (flow_nodes w) = Return (JStr d)).
  { unfold default_node_name.
    destruct Hdefault as [[-> ->]|[-> [rest ->]]]; reflexivity. }
  assert (Hstored : dict_get call_id (call_states_file w1) = Some (JStr d)).
  { subst w1 states. simpl. apply dict_get_setitem_same. }
  split; [|split; [exact Hstored|]].
  - rewrite get_current_node_name_run. cbv zeta. unfold dict_get_default.
    rewrite Hunseen. cbn [truthy]. rewrite Hd. reflexivity.
  - rewrite get_current_node_name_run. cbv zeta. unfold dict_get_default.
    rewrite Hstored.
    destruct (truthy (JStr d)) eqn:Ht.
    + repeat split.
    + replace (flow_nodes w1) with (flow_nodes w) by reflexivity. rewrite Hd.
      simpl. repeat split.
      * subst w1 states. simpl. apply dict_setitem_twice.
      * intros Hne. apply truthy_JStr in Hne. congruence.
Qed.

(** In the two-node line an unknown call is placed at [start], and a second
    look-up changes nothing. *)
Lemma unseen_call_gets_default_node_witness :
  let w := start_world two_step_pathways default_config [] in
  let states := [("abc", JStr "start")] in
  let w1 := with_events [SaveCallStates states] (with_call_states_file states w) in
  get_current_node_name "abc" w = (Return (JStr "start"), w1) /\
  get_current_node_name "abc" w1 = (Return (JStr "start"), w1).
Proof.
  intros w states w1.
  destruct (unseen_call_gets_default_node "abc" w "start" eq_refl
              (or_introl (conj eq_refl eq_refl)))
    as (H1 & _ & _ & _ & H2).
  split; [exact H1 | apply H2; discriminate].
Defined.

(** C2 (as stated) fails on a graph without [start] whose first node has the
    empty name: the second look-up finds the stored empty string, takes the
    call for unseen, computes the default again and writes the store again. *)
Lemma unnamed_default_is_recomputed :
  let w := start_world unnamed_first_pathways default_config [] in
  let w1 := snd (get_current_node_name "abc" w) in
  dict_get "abc" (call_states_file w) = None /\
  dict_contains "start" (flow_nodes w) = false /\
  dict_keys (flow_nodes w) = [""; "next"] /\
  fst (get_current_node_name "abc" w) = Return (JStr "") /\
  trace w1 = [SaveCallStates [("abc", JStr "")]] /\
  get_current_node_name "abc" w1
  = (Return (JStr ""), with_events [SaveCallStates [("abc", JStr "")]] w1) /\
  snd (get_current_node_name "abc" w1) <> w1.
Proof.
  intros w w1. repeat split. intros H. apply (f_equal trace) in H.
  vm_compute in H. discriminate.
Defined.



(** ** The write comes before the provider call *)

(** Node resolution records at most one write of the store, and no call of
    the provider. *)
Lemma get_current_node_name_trace call_id w v w0 :
  get_current_node_name call_id w = (Return v, w0) ->
  exists earlier,
    trace w0 = (trace w ++ earlier)%list /\
    forall q, ~ In (ProviderCall q) earlier.
Proof.
  rewrite get_current_node_name_run. cbv zeta.
  destruct (truthy _).
  - intros [= <- <-]. exists []. rewrite app_nil_r. auto.
  - destruct (default_node_name (flow_nodes w)) as [d|e]; [|discriminate].
    intros [= <- <-]. eexists. split; [reflexivity|].
    intros q [H|[]]. discriminate.
Qed.

(** C3.  For a request that reaches the provider while the first destination
    of its current node is a non-empty name of the graph: the trace of the
    request shows the write of the advanced node to the store immediately
    before the call of the provider, and no provider call earlier; the store
    after the request is the advanced one whatever the provider does; if the
    provider raises, the request ends with that exception and the call has
    advanced all the same. *)
Theorem state_advance_precedes_provider_call
    json_loads json_dumps create_completion create_stream
    call_id request_data w p w1 cur w0 node first rest n :
  build_openai_params call_id request_data w = (Return p, w1) ->
  get_current_node_name call_id w = (Return (JStr cur), w0) ->
  dict_get cur (flow_nodes w) = Some node ->
  dict_get "destinations" node = Some (JArr (first :: rest)) ->
  py_get first "stepName" JNull = Return (JStr n) ->
  n <> "" ->
  dict_contains n (flow_nodes w) = true ->
  let states := dict_setitem call_id (JStr n) (call_states_file w0) in
  exists out w' earlier later,
    openai_advanced_custom_llm_route
      json_loads json_dumps create_completion create_stream
      call_id request_data w = (out, w') /\
    trace w'
    = (trace w ++ earlier ++ [SaveCallStates states; ProviderCall p] ++ later)%list /\
    (forall q, ~ In (ProviderCall q) earlier) /\
    dict_get call_id states = Some (JStr n) /\
    call_states_file w' = states /\
    (forall e,
       (if truthy (stream p) then create_stream p = Raise e
        else create_completion p = Raise e) ->
       out = Raise e /\ later = []).
Proof.
  intros Hb Hget Hnode Hdest Hstep Hne Hn states.
  destruct (route_after_build json_loads json_dumps create_completion create_stream
              _ _ _ _ _ Hb) as (out & later & Hroute & Hfail).
  apply build_openai_params_inv in Hb
    as (cur' & node' & w0' & prompt & sm & wa & msgs
        & Hget' & Hnode' & _ & Hsys & _ & _ & Hadv).
  rewrite Hget in Hget'. injection Hget' as <- <-.
  rewrite Hnode in Hnode'. injection Hnode' as <-.
  destruct (get_current_node_name_stored _ _ _ _ Hget) as (_ & Hg0 & _).
  destruct (get_current_node_name_trace _ _ _ _ Hget) as (earlier & Htrace & Hearlier).
  destruct (build_system_message_frame _ _ _ _ _ Hsys)
    as (Hfile & _ & _ & Htr & Hkeys).
  rewrite (advance_call_state_first _ _ _ _ _ Hdest), Hstep in Hadv.
  rewrite (proj2 (truthy_JStr n) Hne) in Hadv. simpl in Hadv.
  rewrite Hkeys, Hg0, Hn, Hfile in Hadv. fold states in Hadv.
  rewrite save_call_states_run in Hadv. injection Hadv as <-.
  exists out, (with_events (ProviderCall p :: later)
                 (with_events [SaveCallStates states]
                    (with_call_states_file states wa))), earlier, later.
  split; [exact Hroute|]. simpl. rewrite Htr, Htrace.
  repeat split.
  - now rewrite <- !app_assoc.
  - exact Hearlier.
  - apply dict_get_setitem_same.
  - now apply Hfail.
  - now apply (Hfail e).
Qed.

(** With the provider down, the first request of call [x] in the two-node
    line still leaves the call at [end]; the write is in the trace before the
    provider call. *)
Lemma state_advance_precedes_provider_call_witness :
  let w := start_world two_step_pathways default_config [] in
  exists out w' earlier later p,
    openai_advanced_custom_llm_route
      sample_json_loads sample_json_dumps
      failing_create_completion failing_create_stream "x" [] w = (out, w') /\
    trace w'
    = (trace w ++ earlier
       ++ [SaveCallStates [("x", JStr "end")]; ProviderCall p] ++ later)%list /\
    call_states_file w' = [("x", JStr "end")] /\
    out = Raise (ProviderError "connection refused").
Proof.
  intros w.
  pose proof (fun p w1 w0 node =>
                state_advance_precedes_provider_call
                  sample_json_loads sample_json_dumps
                  failing_create_completion failing_create_stream
                  "x" [] w p w1 "start" w0 node
                  (JObj [("stepName", JStr "end")]) [] "end") as Hthm.
  edestruct Hthm
    as (out & w' & earlier & later & Hroute & Htrace & _ & _ & Hfile & Hfail).
  - vm_compute. reflexivity.
  - vm_compute. reflexivity.
  - reflexivity.
  - reflexivity.
  - reflexivity.
  - discriminate.
  - reflexivity.
  - exists out, w', earlier, later. eexists.
    split; [exact Hroute|]. split; [exact Htrace|]. split; [exact Hfile|].
    apply (Hfail (ProviderError "connection refused")). reflexivity.
Defined.

(** ** A stored node that the graph does not have *)

(** C4 (as amended).  When the store holds, for the call of a request, a
    non-empty name that is not a key of the graph, the handler does not
    answer: it raises [KeyError] with that name from the look-up in the
    graph.  Nothing is written, no log record is made and the provider is
    not called: the process state is as before the request. *)
Theorem unknown_current_node_raises_KeyError
    json_loads json_dumps create_completion create_stream
    call_id request_data w node_name :
  dict_get call_id (call_states_file w) = Some (JStr node_name) ->
  node_name <> "" ->
  dict_contains node_name (flow_nodes w) = false ->
  openai_advanced_custom_llm_route
    json_loads json_dumps create_completion create_stream
    call_id request_data w
  = (Raise (KeyError (JStr node_name)), w).
Proof.
  intros Hstored Hne Habsent.
  apply route_build_raises.
  unfold build_openai_params, bind.
  rewrite get_current_node_name_run. cbv zeta. unfold dict_get_default.
  rewrite Hstored, (proj2 (truthy_JStr node_name) Hne).
  unfold the_flow_nodes, lift, py_lookup.
  unfold dict_contains in Habsent.
  destruct (dict_get node_name (flow_nodes w)); [discriminate | reflexivity].
Qed.

(** A call that the store places at [ghost], a node the default graph does
    not have. *)
Lemma unknown_current_node_raises_KeyError_witness :
  let w := start_world default_pathways default_config [("abc", JStr "ghost")] in
  openai_advanced_custom_llm_route
    sample_json_loads sample_json_dumps
    sample_create_completion sample_create_stream "abc" [] w
  = (Raise (KeyError (JStr "ghost")), w).
Proof.
  intros w.
  apply (unknown_current_node_raises_KeyError
           sample_json_loads sample_json_dumps
           sample_create_completion sample_create_stream "abc" [] w "ghost").
  - reflexivity.
  - discriminate.
  - reflexivity.
Defined.

(** C4 (as stated) fails: for the call placed at [ghost] the handler returns
    no response at all, so none with status 400; it ends with a [KeyError]. *)
Lemma unknown_current_node_is_no_bad_request :
  let w := start_world default_pathways default_config [("abc", JStr "ghost")] in
  let result := openai_advanced_custom_llm_route
                  sample_json_loads sample_json_dumps
                  sample_create_completion sample_create_stream "abc" [] w in
  dict_get "abc" (call_states_file w) = Some (JStr "ghost") /\
  dict_contains "ghost" (flow_nodes w) = false /\
  fst result = Raise (KeyError (JStr "ghost")) /\
  ~ exists body, fst result = Return (JsonResponse 400 body).
Proof.
  intros w result. repeat split. intros [body H]. vm_compute in H. discriminate.
Defined.

(** ** Transfer frames in the stream *)

Section Streaming.

Variable json_loads : string -> option json.
Variable json_dumps : json -> string.

Local Abbreviation sse := (sse json_dumps).
Local Abbreviation content_frames := (content_frames json_dumps).
Local Abbreviation one_chunk := (stream_chunk json_loads json_dumps).
Local Abbreviation generator := (generate_streaming_response json_loads json_dumps).

(** A [transferCall] fragment whose arguments are a JSON object yields one
    function-call frame, after the content frame if the chunk has content;
    the destination is the one given, or the forwarding number. *)
Lemma stream_chunk_transfer_object c first rest fc s fields fwd w :
  choices c = first :: rest ->
  function_call (delta first) = Some fc ->
  name fc = Some "transferCall" ->
  arguments fc = Some s ->
  json_loads s = Some (JObj fields) ->
  dict_get "forwardingPhoneNumber" (assistant_config w) = Some fwd ->
  one_chunk c w
  = (Return ((content_frames (delta first)
              ++ [sse (function_call_payload
                         (dict_get_default "destination" fwd fields))])%list,
             None), w).
Proof.
  intros Hc Hfc Hn Ha Hl Hf. unfold stream_chunk.
  rewrite Hc, Hfc, Hn, Ha, Hl. simpl.
  unfold bind, the_assistant_config. now rewrite Hf.
Qed.

(** Arguments that are no JSON at all are logged; the chunk yields no
    function-call frame and the loop goes on. *)
Lemma stream_chunk_transfer_unparsable c first rest fc s w :
  choices c = first :: rest ->
  function_call (delta first) = Some fc ->
  name fc = Some "transferCall" ->
  arguments fc = Some s ->
  json_loads s = None ->
  one_chunk c w
  = (Return (content_frames (delta first), None),
     with_events [LogError "Failed to parse transferCall arguments"] w).
Proof.
  intros Hc Hfc Hn Ha Hl. unfold stream_chunk.
  rewrite Hc, Hfc, Hn, Ha, Hl. reflexivity.
Qed.

(** Arguments that are JSON but not an object have no [get]: the
    [AttributeError] is not caught and leaves the loop. *)
Lemma stream_chunk_transfer_not_object c first rest fc s v w :
  choices c = first :: rest ->
  function_call (delta first) = Some fc ->
  name fc = Some "transferCall" ->
  arguments fc = Some s ->
  json_loads s = Some v ->
  (forall fields, v <> JObj fields) ->
  one_chunk c w
  = (Return (content_frames (delta first), Some AttributeError), w).
Proof.
  intros Hc Hfc Hn Ha Hl Hv. unfold stream_chunk.
  rewrite Hc, Hfc, Hn, Ha, Hl. simpl.
  destruct v; try reflexivity. now destruct (Hv fields).
Qed.

(** The loop goes on after a chunk that raised nothing, and ends with the
    chunk that raised. *)
Lemma generate_streaming_response_continues
    c rest frames w w1 frames' failure w2 :
  one_chunk c w = (Return (frames, None), w1) ->
  generator rest w1 = (Return (frames', failure), w2) ->
  generator (c :: rest) w = (Return ((frames ++ frames')%list, failure), w2).
Proof.
  intros Hc Hrest. simpl. unfold bind. rewrite Hc. simpl. now rewrite Hrest.
Qed.

Lemma generate_streaming_response_stops c rest frames e w w1 :
  one_chunk c w = (Return (frames, Some e), w1) ->
  generator (c :: rest) w = (Return (frames, Some e), w1).
Proof. intros Hc. simpl. unfold bind. now rewrite Hc. Qed.

End Streaming.

(** C5, at the input where the code departs from it.  The provider streams a
    [transferCall] fragment whose arguments are the JSON text of an empty
    list, then a text fragment.  The arguments parse, yet no frame is
    emitted for the fragment, nothing is logged, and the generator ends with
    an [AttributeError] before the text fragment is read. *)
Lemma transfer_arguments_not_an_object_end_the_stream :
  let w := start_world default_pathways default_config [] in
  sample_json_loads "[]" = Some (JArr []) /\
  generate_streaming_response sample_json_loads sample_json_dumps
    [transfer_chunk "[]"; text_chunk "Hello"] w
  = (Return ([], Some AttributeError), w) /\
  generate_streaming_response sample_json_loads sample_json_dumps
    [text_chunk "Hello"] w
  = (Return ([sse sample_json_dumps (content_payload "Hello")], None), w).
Proof. intros w. repeat split. Qed.

(** The same stream with arguments that are an object, and with arguments
    that are no JSON: one frame with the forwarding number, then a logged
    failure, and the text fragment is relayed in both cases. *)
Lemma transfer_arguments_in_a_stream :
  let w := start_world default_pathways default_config [] in
  generate_streaming_response sample_json_loads sample_json_dumps
    [transfer_chunk "{}"; transfer_chunk "{oops"; text_chunk "Hello"] w
  = (Return ([sse sample_json_dumps (function_call_payload (JStr "+40761983263"));
              sse sample_json_dumps (content_payload "Hello")], None),
     with_events [LogError "Failed to parse transferCall arguments"] w).
Proof. intros w. reflexivity. Qed.

(** ** What the provider is sent *)

(** The parameters built for a request are the ones the provider is called
    with. *)
Lemma route_calls_provider
    json_loads json_dumps create_completion create_stream
    call_id request_data w p w1 :
  build_openai_params call_id request_data w = (Return p, w1) ->
  exists later,
    trace (snd (openai_advanced_custom_llm_route
                  json_loads json_dumps create_completion create_stream
                  call_id request_data w))
    = (trace w1 ++ ProviderCall p :: later)%list.
Proof.
  intros Hb.
  destruct (route_after_build json_loads json_dumps create_completion create_stream
              _ _ _ _ _ Hb) as (out & later & Hr & _).
  exists later. now rewrite Hr.
Qed.

(** The messages start with the system entry. *)
Lemma build_messages_head system_message request_data msgs :
  build_messages system_message request_data = Return msgs ->
  exists rest,
    msgs = JObj [("role", JStr "system"); ("content", system_message)] :: rest.
Proof.
  unfold build_messages.
  destruct (dict_get "messages" request_data) as [history|];
    [|intros [= <-]; eauto].
  destruct (truthy history); [|intros [= <-]; eauto].
  destruct (py_last history); [intros [= <-]; eauto | discriminate].
Qed.

(** C6, at the input where the code departs from it.  The configuration
    has no [forwardingPhoneNumber]: the number is unset.
    [get_available_functions], which reads the key with [get], returns the
    empty list, as the claim says.  The handler reads the same key by index
    when it makes the system message: the request ends there with
    [KeyError], after node resolution has written the store; no parameters
    are built and the provider is not called, so that neither an empty
    function list nor a system prompt without the transfer sentence is ever
    sent.  With the key present and empty, the same request reaches the
    provider without functions and with the instruction of the node alone. *)
Lemma unset_forwarding_number_raises_KeyError :
  let request_data := [("messages", JArr [JObj [("role", JStr "user");
                                                ("content", JStr "Hello")]])] in
  let w := start_world default_pathways config_without_forwarding [] in
  dict_get "forwardingPhoneNumber" (assistant_config w) = None /\
  get_available_functions w = (Return [], w) /\
  (exists w0,
     build_openai_params "abc" request_data w
     = (Raise (KeyError (JStr "forwardingPhoneNumber")), w0) /\
     openai_advanced_custom_llm_route
       sample_json_loads sample_json_dumps
       sample_create_completion sample_create_stream "abc" request_data w
     = (Raise (KeyError (JStr "forwardingPhoneNumber")), w0) /\
     trace w0 = [SaveCallStates [("abc", JStr "start")]]) /\
  (exists p w1,
     build_openai_params "abc" request_data
       (start_world default_pathways config_empty_forwarding [])
     = (Return p, w1) /\
     functions p = None /\
     messages p
     = [JObj [("role", JStr "system");
              ("content",
               JStr "You are a helpful assistant. Help users with their questions and transfer them when requested.")];
        JObj [("role", JStr "user"); ("content", JStr "Hello")]]).
Proof.
  intros request_data w. split; [reflexivity|]. split; [reflexivity|]. split.
  - eexists. split; [reflexivity|]. split; reflexivity.
  - do 2 eexists. split; [reflexivity|]. split; reflexivity.
Qed.

(** A configuration that has the key.  [get_available_functions] returns
    the [transferCall] descriptor alone when the configured
    [forwardingPhoneNumber] is true in Python's sense, which for a string
    means non-empty, and the empty list otherwise.  For a request that
    reaches the provider, the parameters the provider is called with hold
    the descriptor if and only if the forwarding number is true.  When it is
    not, the parameters have neither [functions] nor [function_call], and
    the content of the system message is the prompt of the current node with
    nothing appended. *)
Theorem transferCall_advertised_iff_forwarding_number
    json_loads json_dumps create_completion create_stream w :
  let forwarding :=
    dict_get_default "forwardingPhoneNumber" JNull (assistant_config w) in
  get_available_functions w
  = (Return (if truthy forwarding then [transferCall_descriptor] else []), w) /\
  forall call_id request_data p w1,
    build_openai_params call_id request_data w = (Return p, w1) ->
    (exists later,
       trace (snd (openai_advanced_custom_llm_route
                     json_loads json_dumps create_completion create_stream
                     call_id request_data w))
       = (trace w1 ++ ProviderCall p :: later)%list) /\
    (functions p = Some [transferCall_descriptor] <-> truthy forwarding = true) /\
    (forall s, forwarding = JStr s ->
               (functions p = Some [transferCall_descriptor] <-> s <> "")) /\
    (truthy forwarding = false ->
     functions p = None /\
     function_call_mode p = None /\
     exists cur node prompt rest,
       fst (get_current_node_name call_id w) = Return (JStr cur) /\
       dict_get cur (flow_nodes w) = Some node /\
       next_prompt_of node = Return prompt /\
       messages p = JObj [("role", JStr "system"); ("content", prompt)] :: rest).
Proof.
  intros forwarding. split; [apply get_available_functions_run|].
  intros call_id request_data p w1 Hb.
  split; [now apply route_calls_provider|].
  apply build_openai_params_inv in Hb
    as (cur & node & w0 & prompt & sm & wa & msgs
        & Hget & Hnode & Hprompt & Hsys & Hmsgs & Hasm & _).
  destruct (get_current_node_name_stored _ _ _ _ Hget) as (_ & _ & Hc0 & _).
  destruct (build_system_message_frame _ _ _ _ _ Hsys) as (_ & Hca & _).
  apply assemble_openai_params_inv in Hasm as (_ & Hm & _ & _ & Hf & Hmode).
  rewrite Hca, Hc0 in Hf, Hmode. fold forwarding in Hf, Hmode.
  assert (Hiff : functions p = Some [transferCall_descriptor]
                 <-> truthy forwarding = true).
  { rewrite Hf. destruct (truthy forwarding); split; congruence. }
  split; [exact Hiff|]. split.
  - intros s Hs. rewrite Hiff, Hs. apply truthy_JStr.
  - intros Hfalse. rewrite Hf, Hmode, Hfalse. repeat split.
    subst forwarding. rewrite <- Hc0 in Hfalse.
    destruct (build_system_message_plain _ _ _ _ _ Hfalse Hsys) as [-> _].
    destruct (build_messages_head _ _ _ Hmsgs) as [rest Hrest].
    exists cur, node, prompt, rest. rewrite Hget, Hm. auto.
Qed.

(** With the default configuration the descriptor is sent; with an empty
    forwarding number it is not, and the system message is the plain
    instruction of the node. *)
Lemma transferCall_advertised_iff_forwarding_number_witness :
  (exists p w1,
     build_openai_params "abc" []
       (start_world default_pathways default_config []) = (Return p, w1) /\
     functions p = Some [transferCall_descriptor]) /\
  (exists p w1 rest,
     build_openai_params "abc" []
       (start_world two_step_pathways config_empty_forwarding []) = (Return p, w1) /\
     functions p = None /\
     messages p
     = JObj [("role", JStr "system"); ("content", JStr no_instructions)] :: rest) /\
  fst (get_available_functions
         (start_world default_pathways config_without_forwarding []))
  = Return [].
Proof.
  split; [|split].
  - pose proof (proj2 (transferCall_advertised_iff_forwarding_number
                         sample_json_loads sample_json_dumps
                         sample_create_completion sample_create_stream
                         (start_world default_pathways default_config [])))
      as Hthm.
    do 2 eexists. split; [vm_compute; reflexivity|].
    refine (proj2 (proj1 (proj2 (Hthm "abc" [] _ _ _))) _); reflexivity.
  - pose proof (proj2 (transferCall_advertised_iff_forwarding_number
                         sample_json_loads sample_json_dumps
                         sample_create_completion sample_create_stream
                         (start_world two_step_pathways config_empty_forwarding [])))
      as Hthm.
    do 3 eexists. split; [vm_compute; reflexivity|].
    destruct (Hthm "abc" [] _ _ eq_refl) as (_ & _ & _ & Hoff).
    destruct (Hoff eq_refl) as (Hf & _).
    split; [exact Hf|]. vm_compute. reflexivity.
  - now rewrite (proj1 (transferCall_advertised_iff_forwarding_number
                          sample_json_loads sample_json_dumps
                          sample_create_completion sample_create_stream
                          (start_world default_pathways config_without_forwarding []))).
Defined.

Lemma last_cons_default (m : json) ms d : last (m :: ms) d = last ms m.
Proof.
  revert m d. induction ms as [|x ms IH]; intros m d; [reflexivity|].
  change (last (m :: x :: ms) d) with (last (x :: ms) d). now rewrite !IH.
Qed.

(** C7.  For a request that reaches the provider, the messages among the
    parameters the provider is called with are: the system entry, whose
    content is the system message computed for the current node, followed by
    the last element of the request's [messages] and nothing else, when the
    request has a non-empty list of messages; the system entry alone, when
    the request has no [messages] or an empty list. *)
Theorem provider_messages_are_system_and_last
    json_loads json_dumps create_completion create_stream
    call_id request_data w p w1 :
  build_openai_params call_id request_data w = (Return p, w1) ->
  exists system_message,
    (exists cur node prompt w0 wa,
       get_current_node_name call_id w = (Return (JStr cur), w0) /\
       dict_get cur (flow_nodes w) = Some node /\
       next_prompt_of node = Return prompt /\
       build_system_message (JStr cur) prompt w0 = (Return system_message, wa)) /\
    (exists later,
       trace (snd (openai_advanced_custom_llm_route
                     json_loads json_dumps create_completion create_stream
                     call_id request_data w))
       = (trace w1 ++ ProviderCall p :: later)%list) /\
    (forall m ms,
       dict_get "messages" request_data = Some (JArr (m :: ms)) ->
       messages p
       = [JObj [("role", JStr "system"); ("content", system_message)];
          last (m :: ms) JNull]) /\
    (dict_get "messages" request_data = None \/
     dict_get "messages" request_data = Some (JArr []) ->
     messages p = [JObj [("role", JStr "system"); ("content", system_message)]]).
Proof.
  intros Hb.
  pose proof (route_calls_provider json_loads json_dumps create_completion
                create_stream _ _ _ _ _ Hb) as Hcall.
  apply build_openai_params_inv in Hb
    as (cur & node & w0 & prompt & sm & wa & msgs
        & Hget & Hnode & Hprompt & Hsys & Hmsgs & Hasm & _).
  apply assemble_openai_params_inv in Hasm as (_ & Hm & _).
  exists sm. split; [now exists cur, node, prompt, w0, wa|].
  split; [exact Hcall|]. rewrite Hm. unfold build_messages in Hmsgs. split.
  - intros m ms Hhist. rewrite Hhist in Hmsgs. simpl in Hmsgs.
    injection Hmsgs as <-. now rewrite last_cons_default.
  - intros [Hnone|Hempty].
    + rewrite Hnone in Hmsgs. now injection Hmsgs.
    + rewrite Hempty in Hmsgs. simpl in Hmsgs. now injection Hmsgs.
Qed.

(** A conversation of three turns: the provider is sent the system entry and
    the third turn only. *)
Lemma provider_messages_are_system_and_last_witness :
  let history :=
    [JObj [("role", JStr "user"); ("content", JStr "Hello")];
     JObj [("role", JStr "assistant"); ("content", JStr "Hi, how can I help?")];
     JObj [("role", JStr "user"); ("content", JStr "Transfer me please")]] in
  let w := start_world default_pathways config_empty_forwarding [] in
  exists p w1 system_message,
    build_openai_params "abc" [("messages", JArr history)] w = (Return p, w1) /\
    messages p
    = [JObj [("role", JStr "system"); ("content", system_message)];
       JObj [("role", JStr "user"); ("content", JStr "Transfer me please")]].
Proof.
  intros history w.
  pose proof (fun p w1 =>
                provider_messages_are_system_and_last
                  sample_json_loads sample_json_dumps
                  sample_create_completion sample_create_stream
                  "abc" [("messages", JArr history)] w p w1) as Hthm.
  edestruct Hthm as (sm & _ & _ & Hlast & _).
  - vm_compute. reflexivity.
  - do 3 eexists. split; [vm_compute; reflexivity|].
    exact (Hlast _ _ eq_refl).
Defined.

(** ** A node without instruction *)

(** A request is dispatched when its documents have the shape the data model
    gives them: the current node has a string for prompt, the configuration
    has a forwarding number (of any value) and a model, the request's
    messages are a list if there are any, and the first destination of the
    node, if there is one, is an object with a string for [stepName]. *)
Lemma build_openai_params_succeeds call_id request_data w cur w0 node s
    fwd model_section model_name :
  get_current_node_name call_id w = (Return (JStr cur), w0) ->
  dict_get cur (flow_nodes w) = Some node ->
  next_prompt_of node = Return (JStr s) ->
  dict_get "forwardingPhoneNumber" (assistant_config w) = Some fwd ->
  dict_get "model" (assistant_config w) = Some model_section ->
  py_getitem model_section "model" = Return model_name ->
  (dict_get "messages" request_data = None \/
   exists history, dict_get "messages" request_data = Some (JArr history)) ->
  (forall v, dict_get "destinations" node = Some v ->
             v = JArr [] \/
             exists d n ds, v = JArr (JObj d :: ds) /\
                            dict_get "stepName" d = Some (JStr n)) ->
  exists p w1, build_openai_params call_id request_data w = (Return p, w1).
Proof.
  intros Hget Hnode Hprompt Hfwd Hmodel Hname Hmsgs Hdest.
  destruct (get_current_node_name_stored _ _ _ _ Hget) as (_ & Hg0 & Hc0 & _).
  unfold build_openai_params, bind. rewrite Hget.
  unfold the_flow_nodes, lift, py_lookup. rewrite Hg0, Hnode, Hprompt.
  rewrite <- Hc0 in Hfwd, Hmodel.
  rewrite (build_system_message_string _ _ _ _ Hfwd).
  assert (Hm : exists msgs,
             build_messages
               (JStr (if truthy fwd then s ++ transfer_sentence else s))
               request_data = Return msgs).
  { unfold build_messages.
    destruct Hmsgs as [->|[history ->]]; [eexists; reflexivity|].
    destruct history as [|m ms]; simpl; eexists; reflexivity. }
  destruct Hm as [msgs ->].
  unfold assemble_openai_params, bind, the_assistant_config, lift, py_lookup.
  rewrite Hmodel, Hname, get_available_functions_run. unfold ret.
  assert (Ha : exists w1, advance_call_state call_id node w0 = (Return tt, w1)).
  { unfold advance_call_state, dict_get_default.
    destruct (dict_get "destinations" node) as [v|] eqn:Hv;
      [|simpl; eexists; reflexivity].
    destruct (Hdest v eq_refl) as [->|(d & n & ds & -> & Hstep)];
      [simpl; eexists; reflexivity|].
    simpl. unfold bind, lift, py_get, dict_get_default. rewrite Hstep.
    destruct (truthy (JStr n)); [|eexists; reflexivity].
    unfold the_flow_nodes, py_contains.
    destruct (dict_contains n (flow_nodes w0)); [|eexists; reflexivity].
    rewrite set_current_node_name_run, save_call_states_run.
    eexists; reflexivity. }
  destruct Ha as [w1 ->]. do 2 eexists. reflexivity.
Qed.

(** C10.  For a node that has no [block], or whose block is an object
    without [instruction], the prompt is found without failure and is the
    literal [No instructions available.]; the system message is that
    literal, followed by the transfer sentence exactly when the configured
    forwarding number is true; a request whose current node is such a node
    is dispatched, whenever the other documents are well formed, and the
    provider is sent that system message. *)
Theorem missing_instruction_gives_default_prompt node :
  dict_get "block" node = None \/
  (exists block, dict_get "block" node = Some (JObj block) /\
                 dict_get "instruction" block = None) ->
  no_instructions = "No instructions available." /\
  next_prompt_of node = Return (JStr no_instructions) /\
  (forall cur w fwd,
     dict_get "forwardingPhoneNumber" (assistant_config w) = Some fwd ->
     build_system_message (JStr cur) (JStr no_instructions) w
     = (Return (JStr (if truthy fwd
                      then no_instructions ++ transfer_sentence
                      else no_instructions)), w)) /\
  (forall call_id request_data w cur w0 fwd model_section model_name,
     get_current_node_name call_id w = (Return (JStr cur), w0) ->
     dict_get cur (flow_nodes w) = Some node ->
     dict_get "forwardingPhoneNumber" (assistant_config w) = Some fwd ->
     dict_get "model" (assistant_config w) = Some model_section ->
     py_getitem model_section "model" = Return model_name ->
     (dict_get "messages" request_data = None \/
      exists history, dict_get "messages" request_data = Some (JArr history)) ->
     (forall v, dict_get "destinations" node = Some v ->
                v = JArr [] \/
                exists d n ds, v = JArr (JObj d :: ds) /\
                               dict_get "stepName" d = Some (JStr n)) ->
     exists p w1 rest,
       build_openai_params call_id request_data w = (Return p, w1) /\
       messages p
       = JObj [("role", JStr "system");
               ("content",
                JStr (if truthy fwd
                      then no_instructions ++ transfer_sentence
                      else no_instructions))] :: rest).
Proof.
  intros Hnode.
  assert (Hprompt : next_prompt_of node = Return (JStr no_instructions)).
  { unfold next_prompt_of, dict_get_default, py_get.
    destruct Hnode as [->|(block & -> & Hi)]; [reflexivity|].
    unfold dict_get_default. now rewrite Hi. }
  split; [reflexivity|]. split; [exact Hprompt|]. split.
  - intros cur w fwd Hfwd. now apply build_system_message_string.
  - intros call_id request_data w cur w0 fwd model_section model_name
           Hget Hcur Hfwd Hmodel Hname Hmsgs Hdest.
    destruct (build_openai_params_succeeds _ _ _ _ _ _ _ _ _ _
                Hget Hcur Hprompt Hfwd Hmodel Hname Hmsgs Hdest)
      as (p & w1 & Hb).
    exists p, w1. pose proof Hb as Hinv.
    apply build_openai_params_inv in Hinv
      as (cur' & node' & w0' & prompt & sm & wa & msgs
          & Hget' & Hnode' & Hprompt' & Hsys & Hm & Hasm & _).
    rewrite Hget in Hget'. injection Hget' as <- <-.
    rewrite Hcur in Hnode'. injection Hnode' as <-.
    rewrite Hprompt in Hprompt'. injection Hprompt' as <-.
    destruct (get_current_node_name_stored _ _ _ _ Hget) as (_ & _ & Hc0 & _).
    rewrite <- Hc0 in Hfwd.
    rewrite (build_system_message_string _ _ _ _ Hfwd) in Hsys.
    injection Hsys as <- <-.
    apply assemble_openai_params_inv in Hasm as (_ & -> & _).
    destruct (build_messages_head _ _ _ Hm) as [rest ->].
    now exists rest.
Qed.

(** Both kinds of node in one graph: [start] has no block, the block of
    [other] has no instruction. *)
Lemma missing_instruction_gives_default_prompt_witness :
  let node := dict_get_default "start" [] bare_pathways in
  let w := start_world bare_pathways default_config [] in
  next_prompt_of node = Return (JStr "No instructions available.") /\
  next_prompt_of (dict_get_default "other" [] bare_pathways)
  = Return (JStr "No instructions available.") /\
  exists p w1 rest,
    build_openai_params "abc" [] w = (Return p, w1) /\
    messages p
    = JObj [("role", JStr "system");
            ("content", JStr (no_instructions ++ transfer_sentence))] :: rest.
Proof.
  intros node w.
  destruct (missing_instruction_gives_default_prompt node (or_introl eq_refl))
    as (_ & Hstart & _ & Hsent).
  destruct (missing_instruction_gives_default_prompt
              (dict_get_default "other" [] bare_pathways)
              (or_intror (ex_intro _ [("label", JStr "x")] (conj eq_refl eq_refl))))
    as (_ & Hother & _).
  split; [exact Hstart|]. split; [exact Hother|].
  eapply (Hsent "abc" [] w "start" _ (JStr "+40761983263")).
  - vm_compute. reflexivity.
  - reflexivity.
  - reflexivity.
  - reflexivity.
  - reflexivity.
  - now left.
  - intros v [= <-]. now left.
Defined.

(** ** The configuration update *)

Section UpdateFacts.
Context {V : Type}.
Implicit Types (d other : pydict V) (k : string) (v : V).

Lemma dict_get_update_other d other k :
  ~ In k (dict_keys other) -> dict_get k (dict_update d other) = dict_get k d.
Proof.
  unfold dict_update. revert d.
  induction other as [|[k0 v0] rest IH]; simpl; intros d Hk; [reflexivity|].
  rewrite IH by tauto. apply dict_get_setitem_other. tauto.
Qed.

(** After [d.update(other)] every key of [other] has the value [other]
    gives it, whatever [d] held for it. *)
Lemma dict_get_update d other k v :
  NoDup (dict_keys other) ->
  dict_get k other = Some v ->
  dict_get k (dict_update d other) = Some v.
Proof.
  unfold dict_update. revert d.
  induction other as [|[k0 v0] rest IH]; simpl; intros d Hnd; [discriminate|].
  inversion Hnd as [|? ? Hk0 Hrest]; subst.
  destruct (String.eqb_spec k0 k) as [->|Hne].
  - intros [= <-].
    change (dict_get k (dict_update (dict_setitem k v0 d) rest) = Some v0).
    rewrite dict_get_update_other by exact Hk0.
    apply dict_get_setitem_same.
  - now apply IH.
Qed.

End UpdateFacts.

Lemma config_post_run new_config w :
  config POST new_config w =
  if truthy (JObj new_config) then
    let merged := dict_update (assistant_config w) new_config in
    (Return (JsonResponse 200
               (JObj [("status", JStr "success");
                      ("message", JStr "Configuration updated")])),
     with_events [DumpConfig merged]
       (with_assistant_config_file merged (with_assistant_config merged w)))
  else
    (Return (JsonResponse 400
               (JObj [("status", JStr "error");
                      ("message", JStr "Invalid configuration")])), w).
Proof. unfold config. destruct (truthy (JObj new_config)); reflexivity. Qed.

(** C8.  Posting the same configuration object a second time leaves the
    configuration in memory and the configuration file as the first post
    made them, and is answered the same.  A post merges at the top level
    only: the keys of the payload are assigned in their order to the
    configuration, so that each key of the payload then holds exactly the
    payload's value, whatever object was there before; a key that the
    payload does not mention keeps the value it had, and no key of the
    configuration is removed; the result is written to the file.  An empty
    payload is refused and changes nothing. *)
Theorem config_update_is_idempotent w new_config :
  let w1 := snd (config POST new_config w) in
  let w2 := snd (config POST new_config w1) in
  assistant_config w2 = assistant_config w1 /\
  assistant_config_file w2 = assistant_config_file w1 /\
  fst (config POST new_config w1) = fst (config POST new_config w) /\
  assistant_config w1
  = (if truthy (JObj new_config)
     then dict_update (assistant_config w) new_config
     else assistant_config w) /\
  assistant_config_file w1
  = (if truthy (JObj new_config)
     then assistant_config w1
     else assistant_config_file w) /\
  (NoDup (dict_keys new_config) ->
   forall k v, dict_get k new_config = Some v ->
               dict_get k (assistant_config w1) = Some v) /\
  (forall k, ~ In k (dict_keys new_config) ->
             dict_get k (assistant_config w1) = dict_get k (assistant_config w)) /\
  (forall k, dict_contains k (assistant_config w) = true ->
             dict_contains k (assistant_config w1) = true).
Proof.
  intros w1 w2. subst w2 w1. rewrite (config_post_run new_config w).
  destruct (truthy (JObj new_config)) eqn:Ht; cbv zeta; cbn [fst snd].
  - rewrite config_post_run, Ht. cbv zeta. simpl.
    rewrite dict_update_idempotent.
    split; [reflexivity|]. split; [reflexivity|]. split; [reflexivity|].
    split; [reflexivity|]. split; [reflexivity|]. split; [|split].
    + intros Hnd k v Hk. now apply dict_get_update.
    + intros k Hk. now apply dict_get_update_other.
    + intros k Hk. now apply dict_contains_update.
  - rewrite config_post_run, Ht. simpl.
    split; [reflexivity|]. split; [reflexivity|]. split; [reflexivity|].
    split; [reflexivity|]. split; [reflexivity|]. split; [|split].
    + intros _ k v Hk. destruct new_config; [discriminate Hk | discriminate Ht].
    + reflexivity.
    + auto.
Qed.

(** Changing the forwarding number twice over, and a nested object that
    replaces the whole [model] section. *)
Lemma config_update_examples :
  let w := start_world default_pathways default_config [] in
  let payload := [("forwardingPhoneNumber", JStr "+15550100");
                  ("model", JObj [("model", JStr "gpt-4o-mini")])] in
  let w1 := snd (config POST payload w) in
  assistant_config w1
  = [("model", JObj [("model", JStr "gpt-4o-mini")]);
     ("forwardingPhoneNumber", JStr "+15550100")] /\
  assistant_config_file w1 = assistant_config w1 /\
  assistant_config (snd (config POST payload w1)) = assistant_config w1 /\
  fst (config POST [] w)
  = Return (JsonResponse 400 (JObj [("status", JStr "error");
                                    ("message", JStr "Invalid configuration")])) /\
  fst (config GET [] w1) = Return (JsonResponse 200 (JObj (assistant_config w1))).
Proof. intros w payload w1. repeat split. Qed.

(** ** Two walks through small graphs *)

(** One node whose destination is itself: the first request of a call is
    resolved at [start], is given the node's instruction as prompt, and
    leaves the call at [start]. *)
Lemma self_loop_walk :
  let nodes := [("start", [("name", JStr "start");
                           ("block", JObj [("instruction", JStr "Hi")]);
                           ("destinations", JArr [JObj [("stepName", JStr "start")]])])] in
  let w := start_world nodes config_empty_forwarding [] in
  exists p w1,
    build_openai_params "abc" [] w = (Return p, w1) /\
    messages p = [JObj [("role", JStr "system"); ("content", JStr "Hi")]] /\
    call_states_file w1 = [("abc", JStr "start")].
Proof. intros nodes w. do 2 eexists. repeat split. Qed.

(** Two nodes in a line: the first request moves the call to [end], the
    second is resolved at [end] and stays there. *)
Lemma two_step_walk :
  let w := start_world two_step_pathways default_config [] in
  exists p1 w1 p2 w2,
    fst (get_current_node_name "x" w) = Return (JStr "start") /\
    build_openai_params "x" [] w = (Return p1, w1) /\
    call_states_file w1 = [("x", JStr "end")] /\
    get_current_node_name "x" w1 = (Return (JStr "end"), w1) /\
    build_openai_params "x" [] w1 = (Return p2, w2) /\
    call_states_file w2 = [("x", JStr "end")].
Proof. intros w. do 4 eexists. repeat split. Qed.

(** ** A configuration without forwarding number *)

(** The handler reads [assistant_config["forwardingPhoneNumber"]] by index,
    where [get_available_functions] uses [get]: when the key is absent the
    list of functions is empty, and every request whose node is resolved
    ends with a [KeyError] before the provider is called. *)
Theorem absent_forwarding_number_fails_the_request
    json_loads json_dumps create_completion create_stream
    call_id request_data w cur w0 node prompt :
  get_current_node_name call_id w = (Return (JStr cur), w0) ->
  dict_get cur (flow_nodes w) = Some node ->
  next_prompt_of node = Return prompt ->
  dict_get "forwardingPhoneNumber" (assistant_config w) = None ->
  fst (get_available_functions w) = Return [] /\
  openai_advanced_custom_llm_route
    json_loads json_dumps create_completion create_stream
    call_id request_data w
  = (Raise (KeyError (JStr "forwardingPhoneNumber")), w0).
Proof.
  intros Hget Hnode Hprompt Hnone. split.
  - rewrite get_available_functions_run. unfold dict_get_default.
    now rewrite Hnone.
  - apply route_build_raises.
    destruct (get_current_node_name_stored _ _ _ _ Hget) as (_ & Hg0 & Hc0 & _).
    unfold build_openai_params, bind. rewrite Hget.
    unfold the_flow_nodes, lift, py_lookup. rewrite Hg0, Hnode, Hprompt.
    unfold build_system_message, bind, the_assistant_config, lift, py_lookup.
    now rewrite Hc0, Hnone.
Qed.

Lemma absent_forwarding_number_fails_the_request_witness :
  let w := start_world default_pathways config_without_forwarding [] in
  exists w0,
    openai_advanced_custom_llm_route
      sample_json_loads sample_json_dumps
      sample_create_completion sample_create_stream "abc" [] w
    = (Raise (KeyError (JStr "forwardingPhoneNumber")), w0) /\
    call_states_file w0 = [("abc", JStr "start")].
Proof.
  intros w.
  pose proof (fun w0 node prompt =>
                absent_forwarding_number_fails_the_request
                  sample_json_loads sample_json_dumps
                  sample_create_completion sample_create_stream
                  "abc" [] w "start" w0 node prompt) as Hthm.
  eexists. split.
  - eapply Hthm; [vm_compute; reflexivity | reflexivity..].
  - reflexivity.
Defined.

(** The provider streams text, then a [transferCall] fragment that names a
    destination: two frames, the second with that destination. *)
Lemma stream_chunk_transfer_object_witness :
  let w := start_world default_pathways default_config [] in
  let args := "{" ++ quoted "destination" ++ ": " ++ quoted "+15550100" ++ "}" in
  stream_chunk sample_json_loads sample_json_dumps (transfer_chunk args) w
  = (Return ([sse sample_json_dumps (function_call_payload (JStr "+15550100"))],
             None), w).
Proof.
  intros w args.
  exact (stream_chunk_transfer_object
           sample_json_loads sample_json_dumps (transfer_chunk args)
           _ [] _ args [("destination", JStr "+15550100")] (JStr "+40761983263") w
           eq_refl eq_refl eq_refl eq_refl eq_refl eq_refl).
Defined.

(** A [transferCall] fragment whose arguments are cut short is logged and
    yields nothing. *)
Lemma stream_chunk_transfer_unparsable_witness :
  let w := start_world default_pathways default_config [] in
  stream_chunk sample_json_loads sample_json_dumps (transfer_chunk "{oops") w
  = (Return ([], None),
     with_events [LogError "Failed to parse transferCall arguments"] w).
Proof.
  intros w.
  exact (stream_chunk_transfer_unparsable
           sample_json_loads sample_json_dumps (transfer_chunk "{oops")
           _ [] _ "{oops" w eq_refl eq_refl eq_refl eq_refl eq_refl).
Defined.

(** * Beyond single requests: what the routes never touch *)

Lemma chat_frame_refl call_id w : chat_frame call_id w w.
Proof. constructor; auto. exists []. now rewrite app_nil_r. Qed.

Lemma chat_frame_trans call_id w1 w2 w3 :
  chat_frame call_id w1 w2 -> chat_frame call_id w2 w3 -> chat_frame call_id w1 w3.
Proof.
  intros [c1 f1 n1 o1 k1 [e1 t1]] [c2 f2 n2 o2 k2 [e2 t2]]. constructor.
  - congruence.
  - congruence.
  - congruence.
  - intros other Hne. now rewrite o2, o1.
  - auto.
  - exists (e1 ++ e2)%list. now rewrite t2, t1, app_assoc.
Qed.

Lemma chat_frame_events call_id events w : chat_frame call_id w (with_events events w).
Proof. constructor; simpl; eauto. Qed.

(** Writing the entry of the call itself stays within the frame. *)
Lemma chat_frame_save call_id v w :
  chat_frame call_id w
    (snd (save_call_states (dict_setitem call_id v (call_states_file w)) w)).
Proof.
  rewrite save_call_states_run. constructor; simpl; eauto.
  - intros other Hne. now apply dict_get_setitem_other.
  - intros k Hk. rewrite dict_contains_setitem, Hk. apply orb_true_r.
Qed.

Lemma keeps_ret {A} call_id (a : A) : keeps (chat_frame call_id) (ret a).
Proof. intros w. apply chat_frame_refl. Qed.

Lemma keeps_lift {A} call_id (o : outcome A) : keeps (chat_frame call_id) (lift o).
Proof. intros w. apply chat_frame_refl. Qed.

Lemma keeps_bind {A B} call_id (m : M A) (f : A -> M B) :
  keeps (chat_frame call_id) m ->
  (forall a, keeps (chat_frame call_id) (f a)) ->
  keeps (chat_frame call_id) (bind m f).
Proof.
  intros Hm Hf w. unfold bind. specialize (Hm w).
  destruct (m w) as [[a|e] w1]; simpl in *; [|exact Hm].
  eapply chat_frame_trans; [exact Hm | apply Hf].
Qed.

Lemma keeps_get_current_node_name call_id :
  keeps (chat_frame call_id) (get_current_node_name call_id).
Proof.
  intros w. rewrite get_current_node_name_run. cbv zeta.
  destruct (truthy _); [apply chat_frame_refl|].
  destruct (default_node_name (flow_nodes w)); [|apply chat_frame_refl].
  apply chat_frame_save.
Qed.

Lemma keeps_set_current_node_name call_id v :
  keeps (chat_frame call_id) (set_current_node_name call_id v).
Proof. intros w. rewrite set_current_node_name_run. apply chat_frame_save. Qed.

Lemma store_instruction_keys n v nodes :
  dict_keys (store_instruction n v nodes) = dict_keys nodes.
Proof.
  unfold store_instruction.
  destruct (dict_get n nodes) as [node|] eqn:Hn; [|reflexivity].
  destruct (dict_get "block" node) as [[| | | | |block]|]; try reflexivity.
  apply dict_keys_setitem_present. unfold dict_contains. now rewrite Hn.
Qed.

Lemma keeps_append_transfer_sentence call_id node_name prompt :
  keeps (chat_frame call_id) (append_transfer_sentence node_name prompt).
Proof.
  intros w. unfold append_transfer_sentence.
  destruct prompt as [| | |s|items|]; try apply chat_frame_refl.
  destruct node_name as [| | |n| |]; try apply chat_frame_refl.
  unfold bind, ret. simpl. constructor; simpl; auto.
  - apply store_instruction_keys.
  - exists []. now rewrite app_nil_r.
Qed.

Lemma keeps_build_system_message call_id node_name prompt :
  keeps (chat_frame call_id) (build_system_message node_name prompt).
Proof.
  unfold build_system_message. apply keeps_bind.
  - intros w. apply chat_frame_refl.
  - intros config. apply keeps_bind; [apply keeps_lift|].
    intros fwd. destruct (truthy fwd);
      [apply keeps_append_transfer_sentence | apply keeps_ret].
Qed.

Lemma keeps_get_available_functions call_id :
  keeps (chat_frame call_id) get_available_functions.
Proof. intros w. rewrite get_available_functions_run. apply chat_frame_refl. Qed.

Lemma keeps_assemble_openai_params call_id streaming msgs :
  keeps (chat_frame call_id) (assemble_openai_params streaming msgs).
Proof.
  unfold assemble_openai_params. apply keeps_bind.
  - intros w. apply chat_frame_refl.
  - intros config. apply keeps_bind; [apply keeps_lift|]. intros section.
    apply keeps_bind; [apply keeps_lift|]. intros model_name.
    apply keeps_bind; [apply keeps_get_available_functions|]. intros available.
    apply keeps_ret.
Qed.

Lemma keeps_advance_call_state call_id node :
  keeps (chat_frame call_id) (advance_call_state call_id node).
Proof.
  unfold advance_call_state. destruct (truthy _); [|apply keeps_ret].
  apply keeps_bind; [apply keeps_lift|]. intros first.
  apply keeps_bind; [apply keeps_lift|]. intros next.
  destruct (truthy next); [|apply keeps_ret].
  apply keeps_bind; [intros w; apply chat_frame_refl|]. intros nodes.
  apply keeps_bind; [apply keeps_lift|]. intros [|].
  - apply keeps_set_current_node_name.
  - apply keeps_ret.
Qed.

Lemma keeps_build_openai_params call_id request_data :
  keeps (chat_frame call_id) (build_openai_params call_id request_data).
Proof.
  unfold build_openai_params.
  apply keeps_bind; [apply keeps_get_current_node_name|]. intros name.
  apply keeps_bind; [intros w; apply chat_frame_refl|]. intros nodes.
  apply keeps_bind; [apply keeps_lift|]. intros node.
  apply keeps_bind; [apply keeps_lift|]. intros prompt.
  apply keeps_bind; [apply keeps_build_system_message|]. intros sm.
  apply keeps_bind; [apply keeps_lift|]. intros msgs.
  apply keeps_bind; [apply keeps_assemble_openai_params|]. intros p.
  apply keeps_bind; [apply keeps_advance_call_state|]. intros _.
  apply keeps_ret.
Qed.

Section RouteFrame.

Variable json_loads : string -> option json.
Variable json_dumps : json -> string.
Variable create_completion : openai_params -> outcome completion.
Variable create_stream : openai_params -> outcome (list chunk).

Lemma keeps_generate_streaming_response call_id chunks :
  keeps (chat_frame call_id)
    (generate_streaming_response json_loads json_dumps chunks).
Proof.
  intros w.
  destruct (generate_streaming_response_frame json_loads json_dumps chunks w)
    as (frames & failure & logs & ->).
  apply chat_frame_events.
Qed.

Lemma keeps_route call_id request_data :
  keeps (chat_frame call_id)
    (openai_advanced_custom_llm_route
       json_loads json_dumps create_completion create_stream
       call_id request_data).
Proof.
  unfold openai_advanced_custom_llm_route.
  apply keeps_bind; [apply keeps_build_openai_params|]. intros p.
  destruct (truthy (stream p)).
  - apply keeps_bind; [intros w; apply chat_frame_events|]. intros _.
    apply keeps_bind; [apply keeps_lift|]. intros chunks.
    apply keeps_bind; [apply keeps_generate_streaming_response|]. intros r.
    apply keeps_ret.
  - apply keeps_bind; [intros w; apply chat_frame_events|]. intros _.
    apply keeps_bind; [apply keeps_lift|]. intros completion.
    apply keeps_lift.
Qed.

End RouteFrame.

(** A request for one call never changes what the store holds for another
    call, whether the request is answered, fails before the provider is
    called, or fails in the provider. *)
Theorem request_leaves_other_calls_alone
    json_loads json_dumps create_completion create_stream
    call_id other request_data w :
  other <> call_id ->
  dict_get other
    (call_states_file
       (snd (openai_advanced_custom_llm_route
               json_loads json_dumps create_completion create_stream
               call_id request_data w)))
  = dict_get other (call_states_file w).
Proof.
  intros Hne.
  now apply (frame_others _ _ _
               (keeps_route json_loads json_dumps create_completion create_stream
                  call_id request_data w)).
Qed.

(** Call [a] is at [end]; a first request of call [b] leaves it there. *)
Lemma request_leaves_other_calls_alone_witness :
  let w := start_world two_step_pathways default_config [("a", JStr "end")] in
  let w' := snd (openai_advanced_custom_llm_route
                   sample_json_loads sample_json_dumps
                   sample_create_completion sample_create_stream "b" [] w) in
  dict_get "a" (call_states_file w') = Some (JStr "end") /\
  dict_get "b" (call_states_file w') = Some (JStr "end").
Proof.
  intros w w'. split; [|reflexivity].
  unfold w'.
  rewrite (request_leaves_other_calls_alone
             sample_json_loads sample_json_dumps
             sample_create_completion sample_create_stream "b" "a" [] w).
  - reflexivity.
  - discriminate.
Defined.

(** Whatever a chat request does, it leaves the configuration in memory and
    the configuration file as they are, the graph keeps its nodes in their
    order, and no call that was in the store is removed from it. *)
Theorem request_never_touches_configuration
    json_loads json_dumps create_completion create_stream
    call_id request_data w :
  let w' := snd (openai_advanced_custom_llm_route
                   json_loads json_dumps create_completion create_stream
                   call_id request_data w) in
  assistant_config w' = assistant_config w /\
  assistant_config_file w' = assistant_config_file w /\
  dict_keys (flow_nodes w') = dict_keys (flow_nodes w) /\
  (forall k, dict_contains k (call_states_file w) = true ->
             dict_contains k (call_states_file w') = true).
Proof.
  intros w'.
  destruct (keeps_route json_loads json_dumps create_completion create_stream
              call_id request_data w) as [Hc Hf Hn _ Hk _].
  auto.
Qed.

(** ** Writing and reading the node of a call *)

(** [set_current_node_name] puts any value under the call, without looking
    at the graph and with one write of the store; no other call, and nothing
    else of the program, is affected.  A true value is what
    [get_current_node_name] then returns, with no further write; a false
    one is taken for no value at all: the next read puts the default node in
    its place. *)
Theorem set_then_get_current_node_name call_id node_name w :
  let w1 := snd (set_current_node_name call_id node_name w) in
  fst (set_current_node_name call_id node_name w) = Return tt /\
  dict_get call_id (call_states_file w1) = Some node_name /\
  (forall other, other <> call_id ->
     dict_get other (call_states_file w1) = dict_get other (call_states_file w)) /\
  flow_nodes w1 = flow_nodes w /\
  assistant_config w1 = assistant_config w /\
  assistant_config_file w1 = assistant_config_file w /\
  trace w1
  = (trace w ++ [SaveCallStates (dict_setitem call_id node_name (call_states_file w))])%list /\
  (truthy node_name = true ->
   get_current_node_name call_id w1 = (Return node_name, w1)) /\
  (truthy node_name = false ->
   forall d, default_node_name (flow_nodes w) = Return d ->
     let w2 := snd (get_current_node_name call_id w1) in
     fst (get_current_node_name call_id w1) = Return d /\
     dict_get call_id (call_states_file w2) = Some d).
Proof.
  intros w1. subst w1.
  rewrite set_current_node_name_run, save_call_states_run. simpl.
  split; [reflexivity|]. split; [apply dict_get_setitem_same|].
  split; [intros other Hne; now apply dict_get_setitem_other|].
  split; [reflexivity|]. split; [reflexivity|]. split; [reflexivity|].
  split; [reflexivity|]. split.
  - intros Ht. rewrite get_current_node_name_run. cbv zeta.
    unfold dict_get_default. simpl.
    now rewrite dict_get_setitem_same, Ht.
  - intros Hf d Hd. rewrite get_current_node_name_run. cbv zeta.
    unfold dict_get_default. simpl.
    rewrite dict_get_setitem_same, Hf, Hd. simpl.
    split; [reflexivity | apply dict_get_setitem_same].
Qed.

(** A node that the graph does not have is stored and read back all the
    same; an empty name is stored too, and the next read replaces it by
    [start]. *)
Lemma set_then_get_current_node_name_witness :
  let w := start_world two_step_pathways default_config [("a", JStr "end")] in
  let w1 := snd (set_current_node_name "b" (JStr "ghost") w) in
  let w2 := snd (set_current_node_name "a" (JStr "") w) in
  get_current_node_name "b" w1 = (Return (JStr "ghost"), w1) /\
  dict_get "a" (call_states_file w1) = Some (JStr "end") /\
  dict_contains "ghost" (flow_nodes w1) = false /\
  dict_get "a" (call_states_file w2) = Some (JStr "") /\
  fst (get_current_node_name "a" w2) = Return (JStr "start").
Proof.
  intros w w1 w2.
  destruct (set_then_get_current_node_name "b" (JStr "ghost") w)
    as (_ & _ & Hother & _ & _ & _ & _ & Hget & _).
  destruct (set_then_get_current_node_name "a" (JStr "") w)
    as (_ & Hput & _ & _ & _ & _ & _ & _ & Hfalse).
  split; [exact (Hget eq_refl)|]. split; [|split; [reflexivity|split]].
  - unfold w1. rewrite Hother; [reflexivity | discriminate].
  - exact Hput.
  - exact (proj1 (Hfalse eq_refl (JStr "start") eq_refl)).
Defined.

(** ** A request that fails before the provider is called *)

Lemma build_system_message_store node_name prompt w :
  call_states_file (snd (build_system_message node_name prompt w))
  = call_states_file w /\
  trace (snd (build_system_message node_name prompt w)) = trace w.
Proof.
  unfold build_system_message, bind, the_assistant_config, lift. simpl.
  destruct (dict_get "forwardingPhoneNumber" (assistant_config w)) as [fwd|];
    [|auto].
  destruct (truthy fwd); [|auto].
  unfold append_transfer_sentence.
  destruct prompt as [| | |s|items|]; auto.
  destruct node_name as [| | |n| |]; auto.
Qed.

Lemma assemble_openai_params_world streaming msgs w :
  snd (assemble_openai_params streaming msgs w) = w.
Proof.
  unfold assemble_openai_params, bind, the_assistant_config, lift. simpl.
  destruct (dict_get "model" (assistant_config w)) as [section|]; [|reflexivity].
  destruct (py_getitem section "model") as [model_name|e]; [|reflexivity].
  now rewrite get_available_functions_run.
Qed.

Lemma advance_call_state_raises call_id node w e w' :
  advance_call_state call_id node w = (Raise e, w') -> w' = w.
Proof.
  unfold advance_call_state. destruct (truthy _); [|discriminate].
  unfold bind, lift, the_flow_nodes. simpl.
  destruct (py_first _) as [first|e1]; [|now intros [= _ <-]].
  destruct (py_get first "stepName" JNull) as [next|e1]; [|now intros [= _ <-]].
  destruct (truthy next); [|discriminate].
  destruct (py_contains next (flow_nodes w)) as [[|]|e1];
    [|discriminate|now intros [= _ <-]].
  rewrite set_current_node_name_run, save_call_states_run. discriminate.
Qed.

Lemma build_openai_params_raises_store call_id request_data w e w1 :
  build_openai_params call_id request_data w = (Raise e, w1) ->
  call_states_file w1 = call_states_file (snd (get_current_node_name call_id w)) /\
  trace w1 = trace (snd (get_current_node_name call_id w)).
Proof.
  unfold build_openai_params, bind.
  destruct (get_current_node_name call_id w) as [[name|e0] wa]; simpl;
    [|now intros [= _ <-]].
  unfold the_flow_nodes, lift.
  destruct (py_lookup name (flow_nodes wa)) as [node|e0]; [|now intros [= _ <-]].
  destruct (next_prompt_of node) as [prompt|e0]; [|now intros [= _ <-]].
  pose proof (build_system_message_store name prompt wa) as [Hfile Htrace].
  destruct (build_system_message name prompt wa) as [[sm|e0] wb]; simpl in *;
    [|now intros [= _ <-]].
  destruct (build_messages sm request_data) as [msgs|e0]; [|now intros [= _ <-]].
  pose proof (assemble_openai_params_world
                (dict_get_default "stream" (JBool false) request_data) msgs wb)
    as Hasm.
  destruct (assemble_openai_params _ msgs wb) as [[p|e0] wc]; simpl in Hasm;
    subst wc; [|now intros [= _ <-]].
  destruct (advance_call_state call_id node wb) as [[[]|e0] wd] eqn:Hadv;
    [discriminate|].
  apply advance_call_state_raises in Hadv. subst wd. now intros [= _ <-].
Qed.

(** When the handler raises before it calls the provider, whatever the
    cause (unknown node, block that is no object, missing configuration key,
    messages or destinations of the wrong shape), the route ends with that
    exception, the provider is not called and the call has not advanced:
    store and trace are as node resolution left them. *)
Theorem failure_before_provider_does_not_advance
    json_loads json_dumps create_completion create_stream
    call_id request_data w e w1 :
  build_openai_params call_id request_data w = (Raise e, w1) ->
  let w0 := snd (get_current_node_name call_id w) in
  openai_advanced_custom_llm_route
    json_loads json_dumps create_completion create_stream
    call_id request_data w = (Raise e, w1) /\
  call_states_file w1 = call_states_file w0 /\
  trace w1 = trace w0.
Proof.
  intros Hb w0. split; [now apply route_build_raises|].
  exact (build_openai_params_raises_store _ _ _ _ _ Hb).
Qed.

(** A request whose [messages] is a JSON object instead of a list: the
    look-up of index -1 raises [KeyError]; call [x] was placed at [start]
    by node resolution and stays there. *)
Lemma failure_before_provider_does_not_advance_witness :
  let w := start_world two_step_pathways default_config [] in
  let request_data := [("messages", JObj [("role", JStr "user")])] in
  exists w1,
    openai_advanced_custom_llm_route
      sample_json_loads sample_json_dumps
      sample_create_completion sample_create_stream "x" request_data w
    = (Raise (KeyError (JNum (-1))), w1) /\
    call_states_file w1 = [("x", JStr "start")] /\
    trace w1 = [SaveCallStates [("x", JStr "start")]].
Proof.
  intros w request_data.
  pose proof (fun w1 =>
                failure_before_provider_does_not_advance
                  sample_json_loads sample_json_dumps
                  sample_create_completion sample_create_stream
                  "x" request_data w (KeyError (JNum (-1))) w1) as Hthm.
  eexists. eapply Hthm. vm_compute. reflexivity.
Defined.

(** ** The graph: read-only, but for an instruction that is a list *)

Lemma get_current_node_name_nodes call_id w :
  flow_nodes (snd (get_current_node_name call_id w)) = flow_nodes w.
Proof.
  rewrite get_current_node_name_run. cbv zeta.
  destruct (truthy _); [reflexivity|].
  now destruct (default_node_name (flow_nodes w)).
Qed.

Lemma build_system_message_nodes node_name prompt w :
  (forall items, prompt <> JArr items) \/
  truthy (dict_get_default "forwardingPhoneNumber" JNull (assistant_config w)) = false ->
  flow_nodes (snd (build_system_message node_name prompt w)) = flow_nodes w.
Proof.
  intros H.
  unfold build_system_message, bind, the_assistant_config, lift, dict_get_default in *.
  simpl.
  destruct (dict_get "forwardingPhoneNumber" (assistant_config w)) as [fwd|];
    [|reflexivity].
  destruct (truthy fwd) eqn:Ht; [|reflexivity].
  destruct H as [H|H]; [|discriminate].
  unfold append_transfer_sentence.
  destruct prompt as [| | |s|items|]; try reflexivity.
  now destruct (H items).
Qed.

Lemma build_openai_params_nodes call_id request_data w :
  (forall name node items,
     dict_get name (flow_nodes w) = Some node ->
     next_prompt_of node <> Return (JArr items)) \/
  truthy (dict_get_default "forwardingPhoneNumber" JNull (assistant_config w)) = false ->
  flow_nodes (snd (build_openai_params call_id request_data w)) = flow_nodes w.
Proof.
  intros H. unfold build_openai_params, bind.
  pose proof (get_current_node_name_nodes call_id w) as Hg.
  pose proof (frame_config _ _ _ (keeps_get_current_node_name call_id w)) as Hc.
  destruct (get_current_node_name call_id w) as [[name|e0] wa];
    simpl in Hg, Hc |- *; [|exact Hg].
  unfold the_flow_nodes, lift.
  destruct (py_lookup name (flow_nodes wa)) as [node|e0] eqn:Hlook; [|exact Hg].
  destruct (next_prompt_of node) as [prompt|e0] eqn:Hprompt; [|exact Hg].
  assert (Hsys : flow_nodes (snd (build_system_message name prompt wa))
                 = flow_nodes wa).
  { apply build_system_message_nodes. rewrite Hc.
    destruct H as [H|H]; [left|now right].
    intros items ->. unfold py_lookup in Hlook.
    destruct name as [| | |n| |]; try discriminate.
    rewrite Hg in Hlook.
    destruct (dict_get n (flow_nodes w)) as [node'|] eqn:Hn; [|discriminate].
    injection Hlook as ->. exact (H n node items Hn Hprompt). }
  destruct (build_system_message name prompt wa) as [[sm|e0] wb];
    simpl in Hsys |- *; [|congruence].
  destruct (build_messages sm request_data) as [msgs|e0]; simpl; [|congruence].
  pose proof (assemble_openai_params_world
                (dict_get_default "stream" (JBool false) request_data) msgs wb)
    as Hasm.
  destruct (assemble_openai_params _ msgs wb) as [[p|e0] wc]; simpl in Hasm;
    subst wc; simpl; [|congruence].
  destruct (advance_call_state call_id node wb) as [r wd] eqn:Hadv.
  apply advance_call_state_frame in Hadv as (Hn & _).
  destruct r as [[]|e0]; simpl; congruence.
Qed.

(** No request changes the graph, provided that no node has a list for
    instruction, or that the configured forwarding number is not true. *)
Theorem graph_is_read_only_without_list_instruction
    json_loads json_dumps create_completion create_stream
    call_id request_data w :
  (forall name node items,
     dict_get name (flow_nodes w) = Some node ->
     next_prompt_of node <> Return (JArr items)) \/
  truthy (dict_get_default "forwardingPhoneNumber" JNull (assistant_config w)) = false ->
  flow_nodes
    (snd (openai_advanced_custom_llm_route
            json_loads json_dumps create_completion create_stream
            call_id request_data w))
  = flow_nodes w.
Proof.
  intros H. rewrite <- (build_openai_params_nodes call_id request_data w H).
  destruct (build_openai_params call_id request_data w) as [[p|e] w1] eqn:Hb.
  - destruct (route_after_build json_loads json_dumps create_completion
                create_stream _ _ _ _ _ Hb) as (out & later & -> & _).
    reflexivity.
  - now rewrite (route_build_raises json_loads json_dumps create_completion
                   create_stream _ _ _ _ _ Hb).
Qed.

(** The default graph after a request is the default graph. *)
Lemma graph_is_read_only_without_list_instruction_witness :
  let w := start_world default_pathways default_config [] in
  flow_nodes
    (snd (openai_advanced_custom_llm_route
            sample_json_loads sample_json_dumps
            sample_create_completion sample_create_stream "abc" [] w))
  = default_pathways.
Proof.
  intros w.
  apply (graph_is_read_only_without_list_instruction
           sample_json_loads sample_json_dumps
           sample_create_completion sample_create_stream "abc" [] w).
  left. intros name node items Hnode.
  change (dict_get name default_pathways = Some node) in Hnode.
  unfold default_pathways in Hnode. cbn [dict_get] in Hnode.
  destruct ("start" =? name); [injection Hnode as <-; discriminate | discriminate].
Defined.

(** When the forwarding number is true and the instruction of the current
    node is a list, the transfer sentence is added to that very list, one
    character per element: the provider is sent the extended list, and the
    graph holds it from then on, so that the next request at this node
    extends it again. *)
Theorem list_instruction_grows_in_the_graph
    call_id request_data w cur w0 node block items fwd p w1 :
  get_current_node_name call_id w = (Return (JStr cur), w0) ->
  dict_get cur (flow_nodes w) = Some node ->
  dict_get "block" node = Some (JObj block) ->
  dict_get "instruction" block = Some (JArr items) ->
  dict_get "forwardingPhoneNumber" (assistant_config w) = Some fwd ->
  truthy fwd = true ->
  build_openai_params call_id request_data w = (Return p, w1) ->
  let extended := JArr (items ++ characters transfer_sentence) in
  (exists rest,
     messages p = JObj [("role", JStr "system"); ("content", extended)] :: rest) /\
  exists node',
    dict_get cur (flow_nodes w1) = Some node' /\
    next_prompt_of node' = Return extended.
Proof.
  intros Hget Hnode Hblock Hinstr Hfwd Ht Hb extended.
  apply build_openai_params_inv in Hb
    as (cur' & node' & w0' & prompt & sm & wa & msgs
        & Hget' & Hnode' & Hprompt & Hsys & Hmsgs & Hasm & Hadv).
  rewrite Hget in Hget'. injection Hget' as <- <-.
  rewrite Hnode in Hnode'. injection Hnode' as <-.
  destruct (get_current_node_name_stored _ _ _ _ Hget) as (_ & Hg0 & Hc0 & _).
  assert (prompt = JArr items) as ->.
  { unfold next_prompt_of, dict_get_default in Hprompt. rewrite Hblock in Hprompt.
    simpl in Hprompt. unfold dict_get_default in Hprompt.
    rewrite Hinstr in Hprompt. now injection Hprompt. }
  unfold build_system_message, bind, the_assistant_config, lift in Hsys.
  simpl in Hsys. rewrite Hc0, Hfwd, Ht in Hsys. simpl in Hsys.
  unfold bind, ret in Hsys. simpl in Hsys. injection Hsys as <- <-.
  apply assemble_openai_params_inv in Hasm as (_ & Hm & _).
  destruct (build_messages_head _ _ _ Hmsgs) as [rest Hrest].
  split; [exists rest; now rewrite Hm|].
  apply advance_call_state_frame in Hadv as (-> & _). simpl.
  unfold store_instruction. rewrite Hg0, Hnode, Hblock.
  rewrite dict_get_setitem_same. eexists. split; [reflexivity|].
  unfold next_prompt_of, dict_get_default. rewrite dict_get_setitem_same. simpl.
  unfold dict_get_default. now rewrite dict_get_setitem_same.
Qed.

(** Two requests at a node whose instruction is the list with the one
    element [Hi]: after the first the graph holds the list with the
    characters of the sentence added, after the second with the characters
    added twice. *)
Lemma list_instruction_grows_in_the_graph_witness :
  let w := start_world list_instruction_pathways default_config [] in
  exists p1 w1 p2 w2 node1 node2,
    build_openai_params "abc" [] w = (Return p1, w1) /\
    dict_get "start" (flow_nodes w1) = Some node1 /\
    next_prompt_of node1
    = Return (JArr ([JStr "Hi"] ++ characters transfer_sentence)) /\
    build_openai_params "abc" [] w1 = (Return p2, w2) /\
    dict_get "start" (flow_nodes w2) = Some node2 /\
    next_prompt_of node2
    = Return (JArr (([JStr "Hi"] ++ characters transfer_sentence)
                    ++ characters transfer_sentence)).
Proof.
  intros w.
  pose proof (fun w w0 node block items p w1 =>
                list_instruction_grows_in_the_graph
                  "abc" [] w "start" w0 node block items
                  (JStr "+40761983263") p w1) as Hthm.
  edestruct (Hthm w) as (_ & node1 & Hn1 & Hp1);
    [vm_compute; reflexivity | reflexivity | reflexivity | reflexivity
    | reflexivity | reflexivity | vm_compute; reflexivity |].
  edestruct (Hthm (snd (build_openai_params "abc" [] w)))
    as (_ & node2 & Hn2 & Hp2);
    [vm_compute; reflexivity | reflexivity | reflexivity | reflexivity
    | reflexivity | reflexivity | vm_compute; reflexivity |].
  do 6 eexists.
  split; [vm_compute; reflexivity|].
  split; [exact Hn1|]. split; [exact Hp1|].
  split; [vm_compute; reflexivity|].
  split; [exact Hn2|]. exact Hp2.
Defined.

(** * The configuration route *)

Section KeyFacts.
Context {V : Type}.
Implicit Types (d other : pydict V) (k : string) (v : V).

Lemma dict_contains_keys d k :
  dict_contains k d = true <-> In k (dict_keys d).
Proof.
  unfold dict_contains, dict_keys.
  induction d as [|[k0 v0] rest IH]; simpl; [split; [discriminate|tauto]|].
  destruct (String.eqb_spec k0 k) as [->|Hne]; [tauto|].
  rewrite IH. split; [tauto|]. intros [H|H]; [contradiction | exact H].
Qed.

Lemma dict_keys_setitem_absent d k v :
  dict_contains k d = false -> dict_keys (dict_setitem k v d) = (dict_keys d ++ [k])%list.
Proof.
  unfold dict_contains, dict_keys.
  induction d as [|[k0 v0] rest IH]; simpl; [reflexivity|].
  destruct (k0 =? k) eqn:E; [discriminate|]. simpl. intros H. now rewrite IH.
Qed.

(** [d.update(other)] keeps the keys of [d] in their places and puts the new
    keys after them. *)
Lemma dict_keys_update d other :
  exists added,
    dict_keys (dict_update d other) = (dict_keys d ++ added)%list /\
    forall k, In k added <->
              In k (dict_keys other) /\ dict_contains k d = false.
Proof.
  unfold dict_update. revert d.
  induction other as [|[k0 v0] rest IH]; intros d; simpl.
  - exists []. rewrite app_nil_r. split; [reflexivity|]. simpl. tauto.
  - destruct (IH (dict_setitem k0 v0 d)) as (added & Hkeys & Hadded).
    destruct (dict_contains k0 d) eqn:Hk0.
    + exists added. rewrite Hkeys, dict_keys_setitem_present by exact Hk0.
      split; [reflexivity|]. intros k. rewrite Hadded.
      rewrite dict_setitem_present_keeps_contains by exact Hk0.
      split; [tauto|]. intros [[->|Hin] Hk]; [congruence | tauto].
    + exists (k0 :: added).
      rewrite Hkeys, dict_keys_setitem_absent by exact Hk0.
      rewrite <- app_assoc. split; [reflexivity|]. intros k. simpl.
      rewrite Hadded, dict_contains_setitem.
      destruct (String.eqb_spec k0 k) as [->|Hne]; simpl.
      * tauto.
      * split; [intros [H|H]; [contradiction | tauto]|]. tauto.
Qed.

End KeyFacts.

(** The configuration route changes nothing but the configuration: call
    states and graph are as before.  A GET changes nothing at all and
    answers with the configuration in memory.  If memory and file agreed
    before the request they agree after it. *)
Theorem config_route_keeps_calls_and_graph method new_config w :
  let w' := snd (config method new_config w) in
  call_states_file w' = call_states_file w /\
  flow_nodes w' = flow_nodes w /\
  config GET new_config w
  = (Return (JsonResponse 200 (JObj (assistant_config w))), w) /\
  (assistant_config w = assistant_config_file w ->
   assistant_config w' = assistant_config_file w').
Proof.
  intros w'. subst w'. destruct method.
  - repeat split. simpl. auto.
  - rewrite config_post_run.
    destruct (truthy (JObj new_config)); cbv zeta; simpl; auto.
Qed.

(** A POST never removes a key: the keys of the configuration keep their
    order, the keys that the payload brings are put after them, and a key
    that the payload does not have keeps its value. *)
Theorem config_post_never_removes_a_key new_config w :
  let w' := snd (config POST new_config w) in
  (exists added,
     dict_keys (assistant_config w') = (dict_keys (assistant_config w) ++ added)%list /\
     forall k, In k added <->
               In k (dict_keys new_config) /\
               dict_contains k (assistant_config w) = false) /\
  (forall k, dict_contains k (assistant_config w) = true ->
             dict_contains k (assistant_config w') = true) /\
  (forall k, ~ In k (dict_keys new_config) ->
             dict_get k (assistant_config w') = dict_get k (assistant_config w)).
Proof.
  intros w'. subst w'. rewrite config_post_run.
  destruct (truthy (JObj new_config)) eqn:Ht; cbv zeta; simpl.
  - split; [apply dict_keys_update|]. split.
    + intros k. apply dict_contains_update.
    + intros k. apply dict_get_update_other.
  - destruct new_config; [|discriminate]. split; [|auto].
    exists []. rewrite app_nil_r. split; [reflexivity|]. simpl. tauto.
Qed.

(** A forwarding number that is posted decides, from the next request on,
    whether the transfer function is advertised; and once the key is there,
    it is there after every later post. *)
Theorem posted_forwarding_number_takes_effect new_config v w :
  NoDup (dict_keys new_config) ->
  dict_get "forwardingPhoneNumber" new_config = Some v ->
  let w' := snd (config POST new_config w) in
  fst (get_available_functions w')
  = Return (if truthy v then [transferCall_descriptor] else []) /\
  (forall call_id request_data p w1,
     build_openai_params call_id request_data w' = (Return p, w1) ->
     functions p = (if truthy v then Some [transferCall_descriptor] else None)) /\
  (forall later,
     dict_contains "forwardingPhoneNumber"
       (assistant_config (snd (config POST later w'))) = true).
Proof.
  intros Hnd Hv w'.
  assert (Hcfg : dict_get "forwardingPhoneNumber" (assistant_config w') = Some v).
  { subst w'. rewrite config_post_run.
    destruct (truthy (JObj new_config)) eqn:Ht; cbv zeta; simpl.
    - now apply dict_get_update.
    - destruct new_config; [discriminate Hv | discriminate Ht]. }
  split; [|split].
  - rewrite get_available_functions_run. unfold dict_get_default. now rewrite Hcfg.
  - intros call_id request_data p w1 Hb.
    apply build_openai_params_inv in Hb
      as (cur & node & w0 & prompt & sm & wa & msgs
          & Hget & _ & _ & Hsys & _ & Hasm & _).
    destruct (get_current_node_name_stored _ _ _ _ Hget) as (_ & _ & Hc0 & _).
    destruct (build_system_message_frame _ _ _ _ _ Hsys) as (_ & Hca & _).
    apply assemble_openai_params_inv in Hasm as (_ & _ & _ & _ & Hf & _).
    rewrite Hca, Hc0 in Hf. unfold dict_get_default in Hf. now rewrite Hcfg in Hf.
  - intros later. rewrite config_post_run.
    assert (Hin : dict_contains "forwardingPhoneNumber" (assistant_config w') = true).
    { unfold dict_contains. now rewrite Hcfg. }
    destruct (truthy (JObj later)); cbv zeta; simpl; [|exact Hin].
    now apply dict_contains_update.
Qed.

(** The transfer function is switched off by posting an empty number. *)
Lemma posted_forwarding_number_takes_effect_witness :
  let w := start_world default_pathways default_config [] in
  let w' := snd (config POST [("forwardingPhoneNumber", JStr "")] w) in
  fst (get_available_functions w) = Return [transferCall_descriptor] /\
  fst (get_available_functions w') = Return [].
Proof.
  intros w w'. split; [reflexivity|].
  refine (proj1 (posted_forwarding_number_takes_effect
                   [("forwardingPhoneNumber", JStr "")] (JStr "") w _ eq_refl)).
  repeat constructor. simpl. tauto.
Defined.

(** * More on the stream *)

Section StreamFacts.

Variable json_loads : string -> option json.
Variable json_dumps : json -> string.

Local Abbreviation content_frames := (content_frames json_dumps).
Local Abbreviation one_chunk := (stream_chunk json_loads json_dumps).
Local Abbreviation generator := (generate_streaming_response json_loads json_dumps).

(** The frames of a stream made of two parts are the frames of the first
    part followed by those of the second, read in the world the first part
    left; if the first part ends with an exception, its frames are all there
    is and the second part is not read. *)
Theorem generate_streaming_response_app l1 l2 w :
  generate_streaming_response json_loads json_dumps (l1 ++ l2)%list w =
  match generate_streaming_response json_loads json_dumps l1 w with
  | (Return (frames1, None), w1) =>
      match generate_streaming_response json_loads json_dumps l2 w1 with
      | (Return (frames2, failure), w2) =>
          (Return ((frames1 ++ frames2)%list, failure), w2)
      | other => other
      end
  | stopped => stopped
  end.
Proof.
  revert w. induction l1 as [|c l1 IH]; intros w.
  - simpl. unfold ret.
    destruct (generator l2 w) as [[[frames2 failure]|e] w2]; reflexivity.
  - simpl. unfold bind.
    destruct (one_chunk c w) as [[[frames failure]|e] w1]; [|reflexivity].
    simpl. destruct failure as [e|]; [reflexivity|].
    rewrite IH.
    destruct (generator l1 w1) as [[[frames1 [e1|]]|e1] w2]; try reflexivity.
    unfold ret. simpl.
    destruct (generator l2 w2) as [[[frames2 failure2]|e2] w3]; [|reflexivity].
    simpl. now rewrite app_assoc.
Qed.

(** A stream in which every chunk has a choice and no first choice is a
    [transferCall] fragment is relayed as it is: one frame for each chunk
    whose first choice has content, in the order of the chunks; nothing is
    logged and nothing fails.  Choices after the first are never read. *)
Theorem text_stream_is_relayed_in_order chunks w :
  Forall (fun c =>
            exists first rest,
              choices c = first :: rest /\
              forall fc, function_call (delta first) = Some fc ->
                         name fc <> Some "transferCall") chunks ->
  generator chunks w
  = (Return (flat_map (fun c => match choices c with
                                | first :: _ => content_frames (delta first)
                                | [] => []
                                end) chunks,
             None), w).
Proof.
  intros H. induction H as [|c rest (first & others & Hc & Hfc) _ IH];
    [reflexivity|].
  assert (Hone : one_chunk c w = (Return (content_frames (delta first), None), w)).
  { unfold stream_chunk. rewrite Hc.
    destruct (function_call (delta first)) as [fc|]; [|reflexivity].
    specialize (Hfc fc eq_refl).
    destruct (name fc) as [n|]; [|reflexivity].
    destruct (String.eqb_spec n "transferCall") as [->|]; [congruence|reflexivity]. }
  simpl. unfold bind. rewrite Hone. simpl. rewrite IH. unfold ret. simpl.
  now rewrite Hc.
Qed.

(** A chunk without choices raises [IndexError], and a [transferCall]
    fragment without arguments raises [TypeError]; neither is caught, so the
    stream ends there: the frames yielded so far stay, the chunks that
    follow are not read. *)
Theorem malformed_chunk_ends_the_stream :
  (forall c rest w,
     choices c = [] ->
     generator (c :: rest) w = (Return ([], Some IndexError), w)) /\
  (forall c first others fc rest w,
     choices c = first :: others ->
     function_call (delta first) = Some fc ->
     name fc = Some "transferCall" ->
     arguments fc = None ->
     generator (c :: rest) w
     = (Return (content_frames (delta first), Some TypeError), w)).
Proof.
  split.
  - intros c rest w Hc. simpl. unfold bind, stream_chunk. now rewrite Hc.
  - intros c first others fc rest w Hc Hfc Hn Ha.
    simpl. unfold bind, stream_chunk. now rewrite Hc, Hfc, Hn, Ha.
Qed.

End StreamFacts.

(** Three text chunks, the second without content. *)
Lemma text_stream_is_relayed_in_order_witness :
  let silent := {| choices := [{| delta := {| content := None;
                                               function_call := None |} |}] |} in
  let w := start_world default_pathways default_config [] in
  generate_streaming_response sample_json_loads sample_json_dumps
    [text_chunk "Hel"; silent; text_chunk "lo"] w
  = (Return ([sse sample_json_dumps (content_payload "Hel");
              sse sample_json_dumps (content_payload "lo")], None), w).
Proof.
  intros silent w.
  apply (text_stream_is_relayed_in_order sample_json_loads sample_json_dumps
           [text_chunk "Hel"; silent; text_chunk "lo"] w).
  repeat constructor; do 2 eexists; (split; [reflexivity | discriminate]).
Defined.

(** A chunk that only reports usage has no choices: the text before it is
    relayed, the text after it is lost. *)
Lemma malformed_chunk_ends_the_stream_witness :
  let w := start_world default_pathways default_config [] in
  generate_streaming_response sample_json_loads sample_json_dumps
    [{| choices := [] |}; text_chunk "Hello"] w
  = (Return ([], Some IndexError), w).
Proof.
  intros w.
  exact (proj1 (malformed_chunk_ends_the_stream sample_json_loads sample_json_dumps)
           {| choices := [] |} [text_chunk "Hello"] w eq_refl).
Defined.

(** * The call of the provider and its answer *)

Lemma assemble_openai_params_model streaming msgs w p w' :
  assemble_openai_params streaming msgs w = (Return p, w') ->
  temperature p = (2 # 10)%Q /\
  exists section,
    dict_get "model" (assistant_config w) = Some section /\
    py_getitem section "model" = Return (model p).
Proof.
  unfold assemble_openai_params, bind, the_assistant_config, lift. simpl.
  destruct (dict_get "model" (assistant_config w)) as [section|]; [|discriminate].
  destruct (py_getitem section "model") as [model_name|e] eqn:Hm; [|discriminate].
  rewrite get_available_functions_run. unfold ret. intros [= <- _]. simpl.
  split; [reflexivity|]. now exists section.
Qed.

(** The parameters of a request that reaches the provider: the model is
    [assistant_config["model"]["model"]], the stream flag is the request's
    [stream] as it came, [False] when the request has none, the token limit
    and the temperature are the constants 1000 and 0.2 whatever the
    configuration says, and [function_call] is ["auto"] exactly when
    functions are advertised. *)
Theorem provider_parameters_mirror_request_and_config
    call_id request_data w p w1 :
  build_openai_params call_id request_data w = (Return p, w1) ->
  stream p = dict_get_default "stream" (JBool false) request_data /\
  max_tokens p = 1000%Z /\
  temperature p = (2 # 10)%Q /\
  (exists section,
     dict_get "model" (assistant_config w) = Some section /\
     py_getitem section "model" = Return (model p)) /\
  (function_call_mode p = Some (JStr "auto") <-> functions p <> None).
Proof.
  intros Hb.
  apply build_openai_params_inv in Hb
    as (cur & node & w0 & prompt & sm & wa & msgs
        & Hget & _ & _ & Hsys & _ & Hasm & _).
  destruct (get_current_node_name_stored _ _ _ _ Hget) as (_ & _ & Hc0 & _).
  destruct (build_system_message_frame _ _ _ _ _ Hsys) as (_ & Hca & _).
  destruct (assemble_openai_params_model _ _ _ _ _ Hasm) as (Ht & section & Hs & Hm).
  apply assemble_openai_params_inv in Hasm as (_ & _ & Hstream & Hmax & Hf & Hmode).
  rewrite Hca, Hc0 in Hs.
  split; [exact Hstream|]. split; [exact Hmax|]. split; [exact Ht|].
  split; [now exists section|].
  rewrite Hf, Hmode. destruct (truthy _); split; congruence.
Qed.

(** A request that asks for a stream with a configuration that sets other
    generation parameters: they are not used. *)
Lemma provider_parameters_mirror_request_and_config_witness :
  let config :=
    [("model", JObj [("model", JStr "gpt-4o-mini"); ("temperature", JNum 1);
                     ("max_tokens", JNum 50)]);
     ("forwardingPhoneNumber", JStr "")] in
  let w := start_world default_pathways config [] in
  exists p w1,
    build_openai_params "abc" [("stream", JBool true)] w = (Return p, w1) /\
    stream p = JBool true /\
    model p = JStr "gpt-4o-mini" /\
    max_tokens p = 1000%Z /\
    temperature p = (2 # 10)%Q.
Proof.
  intros config w.
  pose proof (fun p w1 =>
                provider_parameters_mirror_request_and_config
                  "abc" [("stream", JBool true)] w p w1) as Hthm.
  do 2 eexists. split; [vm_compute; reflexivity|].
  destruct (Hthm _ _ eq_refl) as (Hs & Hm & Ht & _).
  split; [exact Hs|]. split; [reflexivity|]. split; [exact Hm | exact Ht].
Defined.

Section Relay.

Variable json_loads : string -> option json.
Variable json_dumps : json -> string.
Variable create_completion : openai_params -> outcome completion.
Variable create_stream : openai_params -> outcome (list chunk).

(** What becomes of the provider's answer.  Without streaming, the
    [ChatCompletion] that the client returns is handed to [jsonify], whose
    encoder does not know the class: the request ends with [TypeError], after
    the provider was called and the call was advanced, and no response is
    made.  With streaming the response is the event stream that
    [generate_streaming_response] makes of the provider's chunks.  The
    stream flag counts as Python counts it: any true value asks for a
    stream. *)
Theorem completion_fails_in_jsonify_and_stream_is_relayed
    call_id request_data w p w1 :
  build_openai_params call_id request_data w = (Return p, w1) ->
  let called := with_events [ProviderCall p] w1 in
  (forall completion,
     truthy (stream p) = false ->
     create_completion p = Return completion ->
     openai_advanced_custom_llm_route
       json_loads json_dumps create_completion create_stream
       call_id request_data w
     = (Raise TypeError, called)) /\
  (forall chunks,
     truthy (stream p) = true ->
     create_stream p = Return chunks ->
     exists frames failure,
       fst (generate_streaming_response json_loads json_dumps chunks called)
       = Return (frames, failure) /\
       openai_advanced_custom_llm_route
         json_loads json_dumps create_completion create_stream
         call_id request_data w
       = (Return (EventStream frames failure),
          snd (generate_streaming_response json_loads json_dumps chunks called))).
Proof.
  intros Hb called. split.
  - intros completion Hs Hc.
    unfold openai_advanced_custom_llm_route, bind. rewrite Hb, Hs.
    unfold bind, emit, lift. simpl. rewrite Hc. now destruct completion.
  - intros chunks Hs Hc.
    destruct (generate_streaming_response_frame json_loads json_dumps chunks called)
      as (frames & failure & logs & Hg).
    exists frames, failure. rewrite Hg. split; [reflexivity|].
    unfold openai_advanced_custom_llm_route, bind. rewrite Hb, Hs.
    unfold bind, emit, lift. simpl. rewrite Hc. fold called. now rewrite Hg.
Qed.

End Relay.

(** A streamed answer is relayed: the text and the transfer to the
    forwarding number.  The same provider asked without streaming: the
    first request of call [x] in the two-node line ends with [TypeError],
    with the provider called and the call already at [end]. *)
Lemma completion_fails_in_jsonify_and_stream_is_relayed_witness :
  let w := start_world default_pathways default_config [] in
  let line := start_world two_step_pathways default_config [] in
  fst (openai_advanced_custom_llm_route
         sample_json_loads sample_json_dumps
         sample_create_completion sample_create_stream
         "abc" [("stream", JBool true)] w)
  = Return (EventStream
              [sse sample_json_dumps (content_payload "Hello");
               sse sample_json_dumps (function_call_payload (JStr "+40761983263"))]
              None) /\
  exists p w',
    openai_advanced_custom_llm_route
      sample_json_loads sample_json_dumps
      sample_create_completion sample_create_stream "x" [] line
    = (Raise TypeError, w') /\
    call_states_file w' = [("x", JStr "end")] /\
    trace w' = [SaveCallStates [("x", JStr "start")];
                SaveCallStates [("x", JStr "end")];
                ProviderCall p].
Proof.
  intros w line. split.
  - pose proof (fun p w1 =>
                  completion_fails_in_jsonify_and_stream_is_relayed
                    sample_json_loads sample_json_dumps
                    sample_create_completion sample_create_stream
                    "abc" [("stream", JBool true)] w p w1) as Hthm.
    edestruct Hthm as [_ Hstream]; [vm_compute; reflexivity|].
    destruct (Hstream _ eq_refl eq_refl) as (frames & failure & Hg & Hr).
    rewrite Hr. simpl. vm_compute in Hg. now injection Hg as <- <-.
  - pose proof (fun p w1 =>
                  completion_fails_in_jsonify_and_stream_is_relayed
                    sample_json_loads sample_json_dumps
                    sample_create_completion sample_create_stream
                    "x" [] line p w1) as Hthm.
    edestruct Hthm as [Hplain _]; [vm_compute; reflexivity|].
    do 2 eexists. split; [exact (Hplain _ eq_refl eq_refl)|].
    split; reflexivity.
Defined.

(** * Ends of the graph *)

(** A graph without nodes: a call that the store does not know (or knows
    with a false value) cannot be placed; node resolution raises
    [IndexError], and so does the request, with nothing written and the
    provider not called. *)
Theorem empty_graph_fails_every_new_call
    json_loads json_dumps create_completion create_stream
    call_id request_data w :
  flow_nodes w = [] ->
  truthy (dict_get_default call_id JNull (call_states_file w)) = false ->
  get_current_node_name call_id w = (Raise IndexError, w) /\
  openai_advanced_custom_llm_route
    json_loads json_dumps create_completion create_stream
    call_id request_data w = (Raise IndexError, w).
Proof.
  intros Hempty Hfalse.
  assert (Hget : get_current_node_name call_id w = (Raise IndexError, w)).
  { rewrite get_current_node_name_run. cbv zeta. now rewrite Hfalse, Hempty. }
  split; [exact Hget|].
  apply route_build_raises. unfold build_openai_params, bind. now rewrite Hget.
Qed.

Lemma empty_graph_fails_every_new_call_witness :
  let w := start_world [] default_config [] in
  openai_advanced_custom_llm_route
    sample_json_loads sample_json_dumps
    sample_create_completion sample_create_stream "abc" [] w
  = (Raise IndexError, w).
Proof.
  intros w.
  exact (proj2 (empty_graph_fails_every_new_call
                  sample_json_loads sample_json_dumps
                  sample_create_completion sample_create_stream
                  "abc" [] w eq_refl eq_refl)).
Defined.

(** A call that is at a node without destinations (none, or an empty list)
    stays there: whatever the request and whatever becomes of it, the store
    after the request is the store before it. *)
Theorem node_without_destinations_keeps_the_call
    json_loads json_dumps create_completion create_stream
    call_id request_data w cur node :
  dict_get call_id (call_states_file w) = Some (JStr cur) ->
  cur <> "" ->
  dict_get cur (flow_nodes w) = Some node ->
  truthy (dict_get_default "destinations" (JArr []) node) = false ->
  call_states_file
    (snd (openai_advanced_custom_llm_route
            json_loads json_dumps create_completion create_stream
            call_id request_data w))
  = call_states_file w.
Proof.
  intros Hstored Hne Hnode Hdest.
  assert (Hget : get_current_node_name call_id w = (Return (JStr cur), w)).
  { rewrite get_current_node_name_run. cbv zeta. unfold dict_get_default.
    now rewrite Hstored, (proj2 (truthy_JStr cur) Hne). }
  destruct (build_openai_params call_id request_data w) as [[p|e] w1] eqn:Hb.
  - rewrite (route_store _ _ _ _ _ _ _ _ _ Hb).
    apply build_openai_params_inv in Hb
      as (cur' & node' & w0 & prompt & sm & wa & msgs
          & Hget' & Hnode' & _ & Hsys & _ & _ & Hadv).
    rewrite Hget in Hget'. injection Hget' as <- <-.
    rewrite Hnode in Hnode'. injection Hnode' as <-.
    destruct (build_system_message_frame _ _ _ _ _ Hsys) as (Hfile & _).
    unfold advance_call_state in Hadv. rewrite Hdest in Hadv.
    injection Hadv as <-. exact Hfile.
  - rewrite (route_build_raises _ _ _ _ _ _ _ _ _ Hb).
    destruct (build_openai_params_raises_store _ _ _ _ _ Hb) as [Hfile _].
    now rewrite Hget in Hfile.
Qed.

(** Call [x] has reached [end] in the two-node line. *)
Lemma node_without_destinations_keeps_the_call_witness :
  let w := start_world two_step_pathways default_config [("x", JStr "end")] in
  call_states_file
    (snd (openai_advanced_custom_llm_route
            sample_json_loads sample_json_dumps
            failing_create_completion failing_create_stream "x" [] w))
  = [("x", JStr "end")].
Proof.
  intros w.
  apply (node_without_destinations_keeps_the_call
           sample_json_loads sample_json_dumps
           failing_create_completion failing_create_stream "x" [] w "end"
           [("name", JStr "end"); ("destinations", JArr [])]).
  - reflexivity.
  - discriminate.
  - reflexivity.
  - reflexivity.
Defined.

(** * Loading the graph *)

Lemma load_nodes_cons x rest nodes g :
  load_nodes (x :: rest) nodes = Loaded g ->
  exists fields k,
    x = JObj fields /\
    dict_get "name" fields = Some (JStr k) /\
    load_nodes rest (dict_setitem k fields nodes) = Loaded g.
Proof.
  simpl. destruct x as [| | | | |fields]; simpl; try discriminate.
  destruct (dict_get "name" fields) as [[| | |k| |]|] eqn:Hn; try discriminate.
  intros H. now exists fields, k.
Qed.

Lemma load_nodes_app pre l nodes g :
  load_nodes (pre ++ l)%list nodes = Loaded g ->
  exists nodes',
    load_nodes pre nodes = Loaded nodes' /\ load_nodes l nodes' = Loaded g.
Proof.
  revert nodes. induction pre as [|x pre IH]; intros nodes H.
  - now exists nodes.
  - change ((x :: pre) ++ l)%list with (x :: (pre ++ l))%list in H.
    apply load_nodes_cons in H as (fields & k & -> & Hn & H).
    destruct (IH _ H) as (nodes' & Hpre & Hl).
    exists nodes'. split; [|exact Hl]. simpl. now rewrite Hn.
Qed.

Lemma dict_keys_setitem_NoDup {V} (d : pydict V) k v :
  NoDup (dict_keys d) -> NoDup (dict_keys (dict_setitem k v d)).
Proof.
  intros Hnd. destruct (dict_contains k d) eqn:Hk.
  - now rewrite dict_keys_setitem_present.
  - rewrite dict_keys_setitem_absent by exact Hk.
    apply NoDup_app; [exact Hnd | repeat constructor; simpl; tauto|].
    intros x Hx [<-|[]]. apply dict_contains_keys in Hx. congruence.
Qed.

Lemma load_nodes_keys raw nodes g :
  load_nodes raw nodes = Loaded g ->
  (NoDup (dict_keys nodes) -> NoDup (dict_keys g)) /\
  (exists added, dict_keys g = (dict_keys nodes ++ added)%list) /\
  (forall k, dict_contains k nodes = true -> dict_contains k g = true).
Proof.
  revert nodes. induction raw as [|x raw IH]; intros nodes H.
  - injection H as <-. split; [auto|]. split; [|auto].
    exists []. now rewrite app_nil_r.
  - apply load_nodes_cons in H as (fields & k & -> & Hn & H).
    destruct (IH _ H) as (Hnd & (added & Hadded) & Hin). split; [|split].
    + intros Hn0. apply Hnd. now apply dict_keys_setitem_NoDup.
    + destruct (dict_contains k nodes) eqn:Hk.
      * exists added. now rewrite Hadded, dict_keys_setitem_present.
      * exists (k :: added).
        rewrite Hadded, dict_keys_setitem_absent by exact Hk.
        now rewrite <- app_assoc.
    + intros k0 Hk0. apply Hin. rewrite dict_contains_setitem, Hk0.
      apply orb_true_r.
Qed.

Lemma load_nodes_lookup raw nodes g k node :
  load_nodes raw nodes = Loaded g ->
  dict_get k g = Some node ->
  (In (JObj node) raw /\ dict_get "name" node = Some (JStr k)) \/
  dict_get k nodes = Some node.
Proof.
  revert nodes. induction raw as [|x raw IH]; intros nodes H Hk.
  - injection H as <-. now right.
  - apply load_nodes_cons in H as (fields & k0 & -> & Hn & H).
    destruct (IH _ H Hk) as [[Hin Hname]|Hacc].
    + left. split; [now right | exact Hname].
    + destruct (String.eqb_spec k0 k) as [->|Hne].
      * rewrite dict_get_setitem_same in Hacc. injection Hacc as <-.
        left. split; [now left | exact Hn].
      * rewrite dict_get_setitem_other in Hacc by exact Hne. now right.
Qed.

Lemma load_nodes_names raw nodes g fields k :
  load_nodes raw nodes = Loaded g ->
  In (JObj fields) raw ->
  dict_get "name" fields = Some (JStr k) ->
  dict_contains k g = true.
Proof.
  revert nodes. induction raw as [|x raw IH]; intros nodes H Hin Hname; [destruct Hin|].
  apply load_nodes_cons in H as (fields0 & k0 & -> & Hn & H).
  destruct Hin as [[= <-]|Hin].
  - rewrite Hn in Hname. injection Hname as <-.
    apply (load_nodes_keys _ _ _ H).
    rewrite dict_contains_setitem, String.eqb_refl. reflexivity.
  - now apply (IH _ H).
Qed.

Lemma load_nodes_untouched raw nodes g k :
  load_nodes raw nodes = Loaded g ->
  (forall other, In other raw -> py_getitem other "name" <> Return (JStr k)) ->
  dict_get k g = dict_get k nodes.
Proof.
  revert nodes. induction raw as [|x raw IH]; intros nodes H Hother.
  - now injection H as <-.
  - apply load_nodes_cons in H as (fields & k0 & -> & Hn & H).
    rewrite (IH _ H) by (intros other Hin; apply Hother; now right).
    apply dict_get_setitem_other. intros ->.
    apply (Hother (JObj fields)); [now left|]. simpl. now rewrite Hn.
Qed.

(** Removing a repeated element that occurs again further on. *)
Lemma nodup_app_In (k : string) b c :
  In k c ->
  nodup string_dec (b ++ k :: c)%list = nodup string_dec (b ++ c)%list.
Proof.
  intros Hk. induction b as [|x b IH]; simpl.
  - destruct (in_dec string_dec k c); [reflexivity | contradiction].
  - rewrite IH.
    destruct (in_dec string_dec x (b ++ k :: c)%list) as [H1|H1];
      destruct (in_dec string_dec x (b ++ c)%list) as [H2|H2];
      try reflexivity; exfalso.
    + apply H2. apply in_app_or in H1 as [H1|[<-|H1]];
        apply in_or_app; auto.
    + apply H1. apply in_app_or in H2 as [H2|H2];
        apply in_or_app; [auto | right; now right].
Qed.

(** A list in which every element is an object with a string for name is
    loaded, whatever the graph so far. *)
Lemma load_nodes_total raw names :
  Forall2 (fun x k => exists fields,
             x = JObj fields /\ dict_get "name" fields = Some (JStr k))
          raw names ->
  forall nodes, exists g, load_nodes raw nodes = Loaded g.
Proof.
  induction 1 as [|x k raw names (fields & -> & Hn) _ IH]; intros nodes.
  - now exists nodes.
  - simpl. rewrite Hn. apply IH.
Qed.

(** The keys of the loaded graph: those of the graph so far, then the names
    of the list, each at its first occurrence. *)
Lemma load_nodes_key_order raw names :
  Forall2 (fun x k => exists fields,
             x = JObj fields /\ dict_get "name" fields = Some (JStr k))
          raw names ->
  forall nodes g,
    load_nodes raw nodes = Loaded g ->
    NoDup (dict_keys nodes) ->
    dict_keys g = rev (nodup string_dec (rev (dict_keys nodes ++ names))).
Proof.
  induction 1 as [|x k raw names (fields & -> & Hn) _ IH]; intros nodes g H Hnd.
  - injection H as <-. rewrite app_nil_r.
    rewrite nodup_fixed_point by now apply NoDup_rev.
    now rewrite rev_involutive.
  - simpl in H. rewrite Hn in H.
    rewrite (IH _ _ H) by now apply dict_keys_setitem_NoDup.
    f_equal. destruct (dict_contains k nodes) eqn:Hk.
    + rewrite dict_keys_setitem_present by exact Hk.
      rewrite !rev_app_distr. simpl. rewrite <- app_assoc. simpl.
      symmetry. apply nodup_app_In. apply -> in_rev.
      now apply dict_contains_keys.
    + rewrite dict_keys_setitem_absent by exact Hk.
      now rewrite <- app_assoc.
Qed.

(** What [load_pathways] makes of a file in which every element is an
    object with a string for name.  The file is loaded.  The keys of the
    graph are the names of the file, each once, in the order in which they
    first occur.  The node kept under a name is an element of the file that
    carries that name, and when several elements carry the same name it is
    the last of them.  New calls start at [start] if some node has that
    name, and at the first node of the file otherwise. *)
Theorem load_pathways_keeps_last_node_of_each_name raw_nodes names :
  Forall2 (fun x k => exists fields,
             x = JObj fields /\ dict_get "name" fields = Some (JStr k))
          raw_nodes names ->
  exists g,
    load_pathways (JArr raw_nodes) = Loaded g /\
    dict_keys g = rev (nodup string_dec (rev names)) /\
    (forall k, dict_contains k g = true <-> In k names) /\
    (forall k node, dict_get k g = Some node ->
       In (JObj node) raw_nodes /\ dict_get "name" node = Some (JStr k)) /\
    (forall pre node post k,
       raw_nodes = (pre ++ JObj node :: post)%list ->
       dict_get "name" node = Some (JStr k) ->
       (forall other, In other post -> py_getitem other "name" <> Return (JStr k)) ->
       dict_get k g = Some node) /\
    (forall first rest, names = first :: rest ->
       default_node_name g
       = Return (JStr (if dict_contains "start" g then "start" else first))).
Proof.
  intros Hnames. unfold load_pathways.
  destruct (load_nodes_total _ _ Hnames []) as [g H]. exists g.
  pose proof (load_nodes_key_order _ _ Hnames _ _ H (NoDup_nil _)) as Hkeys.
  simpl in Hkeys.
  split; [exact H|]. split; [exact Hkeys|]. split; [|split; [|split]].
  - intros k. rewrite dict_contains_keys, Hkeys, <- in_rev, nodup_In, <- in_rev.
    tauto.
  - intros k node Hk.
    destruct (load_nodes_lookup _ _ _ _ _ H Hk) as [Hin|Hacc];
      [exact Hin | discriminate].
  - intros pre node post k -> Hname Hother.
    destruct (load_nodes_app _ _ _ _ H) as (nodes' & _ & Hl).
    apply load_nodes_cons in Hl as (fields & k0 & [= <-] & Hn & Hl).
    rewrite Hname in Hn. injection Hn as <-.
    rewrite (load_nodes_untouched _ _ _ _ Hl Hother).
    apply dict_get_setitem_same.
  - intros first rest ->.
    inversion Hnames as [|x k raw names' (fields & -> & Hn) _ Hraw]; subst.
    apply load_nodes_cons in H as (fields' & k & [= <-] & Hn' & H).
    rewrite Hn in Hn'. injection Hn' as <-.
    destruct (load_nodes_keys _ _ _ H) as (_ & (added & Hadded) & _).
    simpl in Hadded. unfold default_node_name. rewrite Hadded.
    now destruct (dict_contains "start" g).
Qed.

(** A file in which two nodes are called [a]: the graph has the second of
    them, at the place of the first. *)
Lemma load_pathways_keeps_last_node_of_each_name_witness :
  let old := [("name", JStr "a"); ("block", JObj [("instruction", JStr "old")])] in
  let b := [("name", JStr "b")] in
  let new := [("name", JStr "a"); ("block", JObj [("instruction", JStr "new")])] in
  load_pathways (JArr [JObj old; JObj b; JObj new]) = Loaded [("a", new); ("b", b)] /\
  exists g,
    load_pathways (JArr [JObj old; JObj b; JObj new]) = Loaded g /\
    dict_keys g = ["a"; "b"] /\
    dict_get "a" g = Some new /\
    default_node_name g = Return (JStr "a").
Proof.
  intros old b new. split; [reflexivity|].
  destruct (load_pathways_keeps_last_node_of_each_name
              [JObj old; JObj b; JObj new] ["a"; "b"; "a"])
    as (g & Hload & Hkeys & Hin & _ & Hlast & Hdefault).
  { repeat constructor; eexists; split; reflexivity. }
  exists g. split; [exact Hload|]. split; [exact Hkeys|]. split.
  - apply (Hlast [JObj old; JObj b] new [] "a" eq_refl eq_refl).
    intros other [].
  - rewrite (Hdefault "a" ["b"; "a"] eq_refl).
    destruct (dict_contains "start" g) eqn:Hs; [|reflexivity].
    apply Hin in Hs. simpl in Hs.
    destruct Hs as [Hs|[Hs|[Hs|[]]]]; discriminate Hs.
Defined.

Lemma load_nodes_after pre l nodes nodes' :
  load_nodes pre nodes = Loaded nodes' ->
  load_nodes (pre ++ l)%list nodes = load_nodes l nodes'.
Proof.
  revert nodes. induction pre as [|x pre IH]; intros nodes H.
  - now injection H as <-.
  - change ((x :: pre) ++ l)%list with (x :: (pre ++ l))%list.
    apply load_nodes_cons in H as (fields & k & -> & Hn & H).
    simpl. rewrite Hn. now apply IH.
Qed.

(** One node that cannot be keyed fails the whole load, wherever it is in
    the file and whatever comes after it: a node without [name] raises
    [KeyError], an element that is no object raises [TypeError].  An empty
    list loads as a graph without nodes, in which no call can be placed. *)
Theorem load_pathways_fails_on_one_bad_node :
  (forall pre fields post nodes,
     load_nodes pre [] = Loaded nodes ->
     dict_get "name" fields = None ->
     load_pathways (JArr (pre ++ JObj fields :: post))
     = LoadRaises (KeyError (JStr "name"))) /\
  (forall pre x post nodes,
     load_nodes pre [] = Loaded nodes ->
     (forall fields, x <> JObj fields) ->
     load_pathways (JArr (pre ++ x :: post)) = LoadRaises TypeError) /\
  load_pathways (JArr []) = Loaded [] /\
  default_node_name [] = Raise IndexError.
Proof.
  split; [|split; [|split; reflexivity]].
  - intros pre fields post nodes Hpre Hname. unfold load_pathways.
    rewrite (load_nodes_after _ _ _ _ Hpre). simpl. now rewrite Hname.
  - intros pre x post nodes Hpre Hx. unfold load_pathways.
    rewrite (load_nodes_after _ _ _ _ Hpre).
    destruct x; try reflexivity. now destruct (Hx fields).
Qed.

(** The default node followed by a node that has a label but no name. *)
Lemma load_pathways_fails_on_one_bad_node_witness :
  load_pathways
    (JArr [JObj [("name", JStr "start")]; JObj [("label", JStr "second")];
           JObj [("name", JStr "end")]])
  = LoadRaises (KeyError (JStr "name")).
Proof.
  exact (proj1 load_pathways_fails_on_one_bad_node
           [JObj [("name", JStr "start")]] [("label", JStr "second")]
           [JObj [("name", JStr "end")]] _ eq_refl eq_refl).
Defined.

(** * Starting the process *)

(** Start-up never overwrites a file that exists and gives each absent file
    its default: no call states, the default configuration, the default
    pathways.  The configuration in memory is the one of the file.  Starting
    again on the files that a start left finds the same documents and loads
    the same state. *)
Theorem start_up_keeps_existing_files fs :
  let ds := fst (start_up fs) in
  call_states ds
  = match call_states_document fs with Some d => d | None => [] end /\
  configuration ds
  = match assistant_config_document fs with Some d => d | None => default_config end /\
  pathways ds
  = match pathways_document fs with Some d => d | None => default_pathways_document end /\
  (forall w, snd (start_up fs) = Loaded w ->
     assistant_config w = configuration ds /\
     assistant_config_file w = configuration ds /\
     call_states_file w = call_states ds /\
     load_pathways (pathways ds) = Loaded (flow_nodes w)) /\
  start_up (found ds) = start_up fs.
Proof.
  intros ds. subst ds. unfold start_up. simpl. repeat split.
  - destruct (load_pathways _); [|discriminate..]. now injection H as <-.
  - destruct (load_pathways _); [|discriminate..]. now injection H as <-.
  - destruct (load_pathways _); [|discriminate..]. now injection H as <-.
  - destruct (load_pathways _) eqn:Hl; [|discriminate..]. now injection H as <-.
Qed.

(** With no file at all, start-up writes the defaults and loads the graph
    with the one node [start].  In a process with the default graph and the
    default configuration in which every call of the store is at [start]:
    every request whose messages are a list (or absent) is dispatched; the
    provider is sent the default instruction followed by the transfer
    sentence, the model [gpt-4o] and the transfer function; and after the
    request, whatever the provider did, graph and configuration are the
    defaults and every call of the store, the requesting one among them, is
    at [start]. *)
Theorem default_installation_serves_every_call
    json_loads json_dumps create_completion create_stream
    call_id request_data w :
  flow_nodes w = default_pathways ->
  assistant_config w = default_config ->
  (forall k v, dict_get k (call_states_file w) = Some v -> v = JStr "start") ->
  (dict_get "messages" request_data = None \/
   exists history, dict_get "messages" request_data = Some (JArr history)) ->
  start_up {| call_states_document := None;
              assistant_config_document := None;
              pathways_document := None |}
  = ({| call_states := [];
        configuration := default_config;
        pathways := default_pathways_document |},
     Loaded (start_world default_pathways default_config [])) /\
  (exists p w1 rest,
     build_openai_params call_id request_data w = (Return p, w1) /\
     messages p
     = JObj [("role", JStr "system");
             ("content",
              JStr ("You are a helpful assistant. Help users with their questions and transfer them when requested."
                    ++ transfer_sentence))] :: rest /\
     model p = JStr "gpt-4o" /\
     functions p = Some [transferCall_descriptor]) /\
  let w' := snd (openai_advanced_custom_llm_route
                   json_loads json_dumps create_completion create_stream
                   call_id request_data w) in
  flow_nodes w' = default_pathways /\
  assistant_config w' = default_config /\
  dict_get call_id (call_states_file w') = Some (JStr "start") /\
  (forall k v, dict_get k (call_states_file w') = Some v -> v = JStr "start").
Proof.
  intros Hg Hc Hall Hmsgs. split; [reflexivity|].
  assert (Hset : forall d : pydict json,
             (forall k v, dict_get k d = Some v -> v = JStr "start") ->
             forall k v, dict_get k (dict_setitem call_id (JStr "start") d) = Some v ->
                         v = JStr "start").
  { intros d Hd k v. destruct (String.eqb_spec call_id k) as [->|Hne].
    - rewrite dict_get_setitem_same. now intros [= <-].
    - rewrite dict_get_setitem_other by exact Hne. apply Hd. }
  assert (Hget : exists w0,
             get_current_node_name call_id w = (Return (JStr "start"), w0) /\
             (forall k v, dict_get k (call_states_file w0) = Some v ->
                          v = JStr "start")).
  { rewrite get_current_node_name_run. cbv zeta. unfold dict_get_default.
    destruct (dict_get call_id (call_states_file w)) as [v|] eqn:Hv.
    - rewrite (Hall _ _ Hv). simpl. eauto.
    - simpl. rewrite Hg. simpl. eexists. split; [reflexivity|]. simpl.
      now apply Hset. }
  destruct Hget as (w0 & Hget & Hall0).
  destruct (get_current_node_name_stored _ _ _ _ Hget) as (_ & Hg0 & Hc0 & _).
  set (node := [("name", JStr "start");
                ("block", JObj [
                   ("instruction",
                    JStr "You are a helpful assistant. Help users with their questions and transfer them when requested.")]);
                ("destinations", JArr [JObj [("stepName", JStr "start")]])]
               : pydict json).
  assert (Hnode : dict_get "start" (flow_nodes w) = Some node)
    by (rewrite Hg; reflexivity).
  assert (Hfwd : dict_get "forwardingPhoneNumber" (assistant_config w)
                 = Some (JStr "+40761983263")) by (rewrite Hc; reflexivity).
  destruct (build_openai_params_succeeds call_id request_data w "start" w0 node
              "You are a helpful assistant. Help users with their questions and transfer them when requested."
              (JStr "+40761983263")
              (JObj [("provider", JStr "openai"); ("model", JStr "gpt-4o");
                     ("messages", JArr [JObj [
                        ("role", JStr "system");
                        ("content",
                         JStr "You are an assistant. When the user asks to be transferred, use the transferCall function.")]])])
              (JStr "gpt-4o") Hget Hnode eq_refl Hfwd)
    as (p & w1 & Hb).
  { rewrite Hc. reflexivity. }
  { reflexivity. }
  { exact Hmsgs. }
  { intros v [= <-]. right. now exists [("stepName", JStr "start")], "start", []. }
  pose proof Hb as Hinv.
  apply build_openai_params_inv in Hinv
    as (cur & node' & w0' & prompt & sm & wa & msgs
        & Hget' & Hnode' & Hprompt & Hsys & Hm & Hasm & Hadv).
  rewrite Hget in Hget'. injection Hget' as <- <-.
  rewrite Hnode in Hnode'. injection Hnode' as <-.
  injection Hprompt as <-.
  rewrite <- Hc0 in Hfwd.
  change (build_system_message (JStr "start")
            (JStr "You are a helpful assistant. Help users with their questions and transfer them when requested.")
            w0 = (Return sm, wa)) in Hsys.
  rewrite (build_system_message_string _ _ _ _ Hfwd) in Hsys.
  injection Hsys as <- <-.
  destruct (assemble_openai_params_model _ _ _ _ _ Hasm) as (_ & section & Hs & Hmodel).
  apply assemble_openai_params_inv in Hasm as (_ & Hmsg & _ & _ & Hf & _).
  rewrite Hc0, Hc in Hs, Hf. injection Hs as <-. injection Hmodel as Hmodel.
  destruct (build_messages_head _ _ _ Hm) as [rest Hrest].
  split.
  { exists p, w1, rest. split; [exact Hb|]. rewrite Hmsg.
    split; [exact Hrest|]. split; [now symmetry | exact Hf]. }
  intros w'. subst w'.
  assert (Hfile : call_states_file w1
                  = dict_setitem call_id (JStr "start") (call_states_file w0)).
  { rewrite (advance_call_state_first call_id node
               (JObj [("stepName", JStr "start")]) [] w0 eq_refl) in Hadv.
    simpl in Hadv. rewrite Hg0, Hg in Hadv. simpl in Hadv.
    rewrite save_call_states_run in Hadv. now injection Hadv as <-. }
  destruct (keeps_route json_loads json_dumps create_completion create_stream
              call_id request_data w) as [Hcfg _ _ _ _ _].
  rewrite (route_store _ _ _ _ _ _ _ _ _ Hb), Hfile.
  split; [|split; [congruence|split]].
  - destruct (route_after_build json_loads json_dumps create_completion
                create_stream _ _ _ _ _ Hb) as (out & later & -> & _).
    simpl. rewrite <- Hg.
    replace w1 with (snd (build_openai_params call_id request_data w))
      by now rewrite Hb.
    apply build_openai_params_nodes. left. intros name n items Hn.
    rewrite Hg in Hn. unfold default_pathways in Hn. cbn [dict_get] in Hn.
    destruct ("start" =? name); [injection Hn as <-; discriminate | discriminate].
  - apply dict_get_setitem_same.
  - now apply Hset.
Qed.

(** The first request after a start without files, with the provider down. *)
Lemma default_installation_serves_every_call_witness :
  let w := start_world default_pathways default_config [] in
  let w' := snd (openai_advanced_custom_llm_route
                   sample_json_loads sample_json_dumps
                   failing_create_completion failing_create_stream
                   "abc" [("messages", JArr [JStr "hello"])] w) in
  flow_nodes w' = default_pathways /\
  call_states_file w' = [("abc", JStr "start")] /\
  dict_get "abc" (call_states_file w') = Some (JStr "start").
Proof.
  intros w w'.
  destruct (default_installation_serves_every_call
              sample_json_loads sample_json_dumps
              failing_create_completion failing_create_stream
              "abc" [("messages", JArr [JStr "hello"])] w eq_refl eq_refl)
    as (_ & _ & Hnodes & _ & Hcall & _).
  - intros k v H. discriminate H.
  - right. now exists [JStr "hello"].
  - split; [exact Hnodes|]. split; [reflexivity | exact Hcall].
Defined.
